(** * Document loaders: Unstructured partitioning client and S3 orchestration

    A shallow embedding of
      - [UnstructuredWebLoader] (document_loaders/web/unstructured.ts):
        the multipart request it builds, the validation of the response and
        the mapping of partition elements to documents;
      - [S3Loader] (document_loaders/web/s3.ts): the two-stage
        download-then-partition orchestration and its two error wrappers.

    The asynchronous code is sequential (every promise is awaited at once), so
    it is embedded as a computation that yields a trace of the outbound calls
    it issued together with a completion: a value, or a thrown error. *)

From Stdlib Require Import Strings.String Strings.Ascii Strings.Byte NArith Lia.
From stdpp Require Import base option list gmap strings pretty.

#[local] Set Warnings "-register-all".
#[local] Open Scope string_scope.
#[local] Open Scope list_scope.

(** ** JavaScript values, errors and completions *)

Module JS.

(** The class of a thrown error object: what [instanceof] and [name] tell. *)
Inductive ErrorClass : Type :=
  | ClsError
  | ClsTypeError
  | ClsSyntaxError
  | ClsOther (name : string).

(** An error object: its class, its [message] and its [cause] (ES2022),
    which is present only when the constructor was given one.  Whatever
    the runtime, [fetch] and the S3 client throw is such an object. *)
Inductive JsError : Type :=
  MkError { err_class : ErrorClass; err_message : string; err_cause : option JsError }.

(** [new Error(message)]: the only way the two loaders build an error. *)
Definition new_Error (message : string) : JsError :=
  MkError ClsError message None.

(** A [TypeError] raised by the runtime itself. *)
Definition new_TypeError (message : string) : JsError :=
  MkError ClsTypeError message None.

Inductive Completion (A : Type) : Type :=
  | Normal (a : A)
  | Throw (e : JsError).
Arguments Normal {A} a.
Arguments Throw {A} e.

Definition cbind {A B : Type} (c : Completion A) (k : A → Completion B) : Completion B :=
  match c with
  | Normal a => k a
  | Throw e => Throw e
  end.

Section Values.
(** JavaScript numbers are IEEE doubles; the loaders never compute with
    them, they only pass them through, so the number type stays abstract. *)
Context {number : Type}.

(** The values [response.json()] can produce, and [undefined], which
    reading an absent property produces. *)
Inductive JsVal : Type :=
  | JUndefined
  | JNull
  | JBool (b : bool)
  | JNum (n : number)
  | JStr (s : string)
  | JArr (items : list JsVal)
  | JObj (props : gmap string JsVal).

(** [typeof v === "string"] *)
Definition typeof_string (v : JsVal) : bool :=
  match v with
  | JStr _ => true
  | _ => false
  end.

(** [v.k] for the three property names the loader reads ([text],
    [metadata], [type]).  None of them is an index or [length], and no
    built-in prototype defines them, so only an own property of a plain
    object answers; reading from [null] or [undefined] throws (the
    message is V8's). *)
Definition get_field (v : JsVal) (k : string) : Completion JsVal :=
  match v with
  | JUndefined =>
      Throw (new_TypeError ("Cannot read properties of undefined (reading '" +:+ k +:+ "')"))
  | JNull =>
      Throw (new_TypeError ("Cannot read properties of null (reading '" +:+ k +:+ "')"))
  | JObj props => Normal (default JUndefined (props !! k))
  | _ => Normal JUndefined
  end.

(** Own enumerable properties of an array-like: index keys, in decimal. *)
Definition index_keyed (items : list JsVal) : gmap string JsVal :=
  list_to_map (imap (λ (i : nat) (x : JsVal), (pretty i, x)) items).

(** The code units of a string, each as a one-character string value. *)
Fixpoint code_units (s : string) : list JsVal :=
  match s with
  | EmptyString => []
  | String c s' => JStr (String c EmptyString) :: code_units s'
  end.

(** [{...v}]: the own enumerable properties that object spread copies.
    [null], [undefined], booleans and numbers contribute nothing; a string
    and an array contribute their index keys. *)
Definition spread (v : JsVal) : gmap string JsVal :=
  match v with
  | JObj props => props
  | JArr items => index_keyed items
  | JStr s => index_keyed (code_units s)
  | _ => ∅
  end.

(** [Array.prototype.join(",")] over the already converted items. *)
Definition join_comma (parts : list string) : string :=
  match parts with
  | [] => ""
  | p :: ps => fold_left (λ acc q, acc +:+ "," +:+ q) ps p
  end.

(** The string conversion of a template literal, [`${v}`].  A plain object
    converts through [Object.prototype.toString]; when it has an own
    [toString] property (from JSON: never callable) the conversion finds
    no usable method and throws. *)
Fixpoint to_string (number_toString : number → string) (v : JsVal) : Completion string :=
  match v with
  | JUndefined => Normal "undefined"
  | JNull => Normal "null"
  | JBool true => Normal "true"
  | JBool false => Normal "false"
  | JNum n => Normal (number_toString n)
  | JStr s => Normal s
  | JArr items =>
      cbind
        ((fix parts (l : list JsVal) : Completion (list string) :=
            match l with
            | [] => Normal []
            | x :: l' =>
                cbind (match x with
                       | JUndefined | JNull => Normal ""
                       | _ => to_string number_toString x
                       end)
                  (λ p, cbind (parts l') (λ ps, Normal (p :: ps)))
            end) items)
        (λ ps, Normal (join_comma ps))
  | JObj props =>
      match props !! "toString" with
      | Some _ => Throw (new_TypeError "Cannot convert object to primitive value")
      | None => Normal "[object Object]"
      end
  end.

(** [items.filter(el => pred el)], where the callback may throw: the
    elements are visited left to right and the first throw ends the call. *)
Fixpoint array_filter (pred : JsVal → Completion bool) (items : list JsVal)
  : Completion (list JsVal) :=
  match items with
  | [] => Normal []
  | el :: rest =>
      cbind (pred el) (λ keep,
      cbind (array_filter pred rest) (λ kept,
      Normal (if keep then el :: kept else kept)))
  end.
End Values.
Arguments JsVal : clear implicits.

(** [s.split(sep)] for a one-character separator. *)
Fixpoint split_on (sep : ascii) (s : string) : list string :=
  match s with
  | EmptyString => [EmptyString]
  | String c s' =>
      if Ascii.eqb c sep then EmptyString :: split_on sep s'
      else match split_on sep s' with
           | [] => [String c EmptyString]
           | seg :: segs => String c seg :: segs
           end
  end.

(** [Array.prototype.pop]'s result: the last item, [undefined] when empty. *)
Definition pop {A : Type} (l : list A) : option A := last l.

(** Truthiness of a string: only [""] is falsy. *)
Definition truthy (s : string) : bool :=
  match s with
  | EmptyString => false
  | String _ _ => true
  end.

(** [haystack.includes(needle)] *)
Definition includes (haystack needle : string) : Prop :=
  ∃ before after : string, haystack = before +:+ needle +:+ after.

End JS.
Export JS.

(** ** Outbound calls and their trace *)

Module Net.

(** One value of a multipart form: a string, or a file part with its
    bytes and its filename. *)
Inductive FormValue : Type :=
  | FormString (s : string)
  | FormFile (content : list byte) (filename : string).

(** A [FormData]: its entries in the order they were appended. *)
Definition FormData : Type := list (string * FormValue).

(** [formData.append(name, value)] *)
Definition append (name : string) (value : FormValue) (formData : FormData) : FormData :=
  formData ++ [(name, value)].

(** [formData.append(name, new Blob([bytes]), filename)]: a blob appended
    with no filename is named ["blob"]. *)
Definition append_blob (name : string) (bytes : list byte) (filename : option string)
    (formData : FormData) : FormData :=
  append name (FormFile bytes (default "blob" filename)) formData.

(** [formData.getAll(name)] *)
Definition getAll (name : string) (formData : FormData) : list FormValue :=
  map snd (List.filter (λ entry, String.eqb (fst entry) name) formData).

(** The argument of [fetch]. *)
Record Request : Type := MkRequest {
  req_url : string;
  req_method : string;
  req_body : FormData;
  req_headers : gmap string string;
}.

(** The argument of [GetObjectCommand]. *)
Record GetObjectInput : Type := MkGetObjectInput {
  Bucket : string;
  Key : string;
}.

(** The calls that leave the process. *)
Inductive Event : Type :=
  | EvS3Send (input : GetObjectInput)
  | EvFetch (request : Request).

Definition is_fetch (ev : Event) : bool :=
  match ev with
  | EvFetch _ => true
  | EvS3Send _ => false
  end.

(** A computation: the calls it issued, in order, and how it completed. *)
Definition M (A : Type) : Type := list Event * Completion A.

Definition ret {A : Type} (a : A) : M A := ([], Normal a).

Definition throw {A : Type} (e : JsError) : M A := ([], Throw e).

(** A step that issues no call. *)
Definition lift {A : Type} (c : Completion A) : M A := ([], c).

(** A step that issues one call and completes as the callee answered. *)
Definition call {A : Type} (ev : Event) (answer : Completion A) : M A := ([ev], answer).

Definition bind {A B : Type} (m : M A) (k : A → M B) : M B :=
  match m with
  | (calls, Normal a) => let (calls', r) := k a in (calls ++ calls', r)
  | (calls, Throw e) => (calls, Throw e)
  end.

(** [try { body } catch (e) { handler e }] *)
Definition try_catch {A : Type} (body : M A) (handler : JsError → M A) : M A :=
  match body with
  | (calls, Normal a) => (calls, Normal a)
  | (calls, Throw e) => let (calls', r) := handler e in (calls ++ calls', r)
  end.

Definition trace {A : Type} (m : M A) : list Event := fst m.
Definition outcome {A : Type} (m : M A) : Completion A := snd m.

End Net.
Export Net.

Notation "x <- m ;; k" := (Net.bind m (λ x, k))
  (at level 100, m at next level, right associativity, only parsing).

(** ** unstructured.ts *)

Module Unstructured.
Section Loader.
Context {number : Type}.

(** What [fetch] resolves to, as the loader uses it: the [ok] flag, the
    status, and the outcomes of reading the body with [text()] and with
    [json()]. *)
Record Response : Type := MkResponse {
  resp_ok : bool;
  resp_status : N;
  resp_text : Completion string;
  resp_json : Completion (JsVal number);
}.

(** The runtime the loader calls into: [fetch], which resolves or
    rejects, and the number-to-string conversion of template literals. *)
Record Runtime : Type := MkRuntime {
  fetch : Request → Completion Response;
  number_toString : number → string;
}.

(** Modelled from the spec: the [Document] class (../../document.js) is
    not among the sources.  An Output Record holds the content and the
    attributes it was built from (spec, section 3). *)
Record Document : Type := MkDocument {
  pageContent : string;
  metadata : gmap string (JsVal number);
}.

Record UnstructuredLoaderOptions : Type := MkOptions {
  opt_apiKey : option string;
  opt_apiUrl : option string;
  opt_strategy : option string;
  opt_encoding : option string;
  opt_ocrLanguages : option (list string);
  opt_coordinates : option bool;
  opt_pdfInferTableStructure : option bool;
  opt_xmlKeepTags : option bool;
}.

(** [options = {}] *)
Definition no_options : UnstructuredLoaderOptions :=
  MkOptions None None None None None None None None.

(** The fields of a loader instance. *)
Record UnstructuredWebLoader : Type := MkLoader {
  filePath : string;
  buffer : list byte;
  apiUrl : string;
  apiKey : option string;
  strategy : string;
  encoding : option string;
  ocrLanguages : list string;
  coordinates : option bool;
  pdfInferTableStructure : option bool;
  xmlKeepTags : option bool;
}.

(** The constructor: [??] keeps the field initialiser when the option is
    [undefined]. *)
Definition new (filePath : string) (buffer : list byte)
    (options : UnstructuredLoaderOptions) : UnstructuredWebLoader :=
  {| filePath := filePath;
     buffer := buffer;
     apiKey := opt_apiKey options;
     apiUrl := default "https://api.unstructured.io/general/v0/general" (opt_apiUrl options);
     strategy := default "hi_res" (opt_strategy options);
     encoding := opt_encoding options;
     ocrLanguages := default [] (opt_ocrLanguages options);
     coordinates := opt_coordinates options;
     pdfInferTableStructure := opt_pdfInferTableStructure options;
     xmlKeepTags := opt_xmlKeepTags options |}.

(** [flag === true] *)
Definition is_true (flag : option bool) : bool :=
  match flag with
  | Some true => true
  | _ => false
  end.

(** [_partition], first half: the form and the headers handed to [fetch]. *)
Definition build_request (self : UnstructuredWebLoader) : Request :=
  let fileName := pop (split_on "/" (filePath self)) in
  let formData : FormData := [] in
  let formData := append_blob "files" (buffer self) fileName formData in
  let formData := append "strategy" (FormString (strategy self)) formData in
  let formData :=
    fold_left (λ fd language, append "ocr_languages" (FormString language) fd)
      (ocrLanguages self) formData in
  let formData :=
    match encoding self with
    | Some enc => if truthy enc then append "encoding" (FormString enc) formData
                  else formData
    | None => formData (* [undefined] is falsy *)
    end in
  let formData :=
    if is_true (coordinates self) then append "coordinates" (FormString "true") formData
    else formData in
  let formData :=
    if is_true (pdfInferTableStructure self)
    then append "pdf_infer_table_structure" (FormString "true") formData
    else formData in
  let formData :=
    if is_true (xmlKeepTags self) then append "xml_keep_tags" (FormString "true") formData
    else formData in
  let headers : gmap string string :=
    {[ "UNSTRUCTURED-API-KEY" := default "" (apiKey self) ]} in
  {| req_url := apiUrl self; req_method := "POST"; req_body := formData;
     req_headers := headers |}.

(** The callback of the filter: [typeof el.text === "string"]. *)
Definition text_is_string (el : JsVal number) : Completion bool :=
  cbind (get_field el "text") (λ text, Normal (typeof_string text)).

(** [_partition]: one request, then the validation of the response. *)
Definition _partition (rt : Runtime) (self : UnstructuredWebLoader)
  : M (list (JsVal number)) :=
  let request := build_request self in
  response <- call (EvFetch request) (fetch rt request) ;;
  if negb (resp_ok response) then
    body <- lift (resp_text response) ;;
    throw (new_Error ("Failed to partition file " +:+ filePath self
                      +:+ " with error " +:+ pretty (resp_status response)
                      +:+ " and message " +:+ body))
  else
    elements <- lift (resp_json response) ;;
    match elements with
    | JArr items => lift (array_filter text_is_string items)
    | _ =>
        shown <- lift (to_string (number_toString rt) elements) ;;
        throw (new_Error ("Expected partitioning request to return an array, but got "
                          +:+ shown))
    end.

(** The loop of [load]: [documents] grows by one record for every element
    whose [text] is a string. *)
Fixpoint load_loop (elements : list (JsVal number)) (documents : list Document)
  : Completion (list Document) :=
  match elements with
  | [] => Normal documents
  | element :: rest =>
      cbind (get_field element "metadata") (λ md,
      cbind (get_field element "text") (λ text,
      match text with
      | JStr s =>
          cbind (get_field element "type") (λ ty,
          load_loop rest
            (documents ++ [ {| pageContent := s;
                               metadata := <["category" := ty]> (spread md) |} ]))
      | _ => load_loop rest documents
      end))
  end.

Definition load (rt : Runtime) (self : UnstructuredWebLoader) : M (list Document) :=
  elements <- _partition rt self ;;
  lift (load_loop elements []).
End Loader.
Arguments Response : clear implicits.
Arguments Runtime : clear implicits.
Arguments Document : clear implicits.
End Unstructured.

(** ** s3.ts *)

Module S3.
Section Loader.
Context {number S3Config : Type}.

(** The object [send] resolves to: its [Body] may be missing, and reading
    it into a byte array may fail. *)
Record GetObjectOutput : Type := MkGetObjectOutput {
  Body : option (Completion (list byte));
}.

(** An S3 client, as the loader uses it. *)
Record S3Client : Type := MkS3Client {
  send : GetObjectInput → Completion GetObjectOutput;
}.

(** The store side of the environment: [new S3Client(config)]. *)
Record Store : Type := MkStore {
  S3Client_new : S3Config → Completion S3Client;
}.

(** The injected loader class, [typeof UnstructuredLoaderDefault]: what
    constructing an instance and calling its [load] does. *)
Definition UnstructuredLoaderClass : Type :=
  string → list byte → Unstructured.UnstructuredLoaderOptions →
  M (list (Unstructured.Document number)).

(** The default value of the [UnstructuredLoader] parameter. *)
Definition UnstructuredLoaderDefault (rt : Unstructured.Runtime number)
  : UnstructuredLoaderClass :=
  λ filePath objectData options,
    Unstructured.load rt (Unstructured.new filePath objectData options).

Record S3Loader : Type := MkS3Loader {
  bucket : string;
  key : string;
  unstructuredAPIURL : string;
  unstructuredAPIKey : string;
  s3Config : S3Config;
  _UnstructuredLoader : UnstructuredLoaderClass;
}.

(** The body of the first [try]: build the client, send the command, read
    the whole body. *)
Definition download (store : Store) (self : S3Loader) : M (list byte) :=
  s3Client <- lift (S3Client_new store (s3Config self)) ;;
  let getObjectCommand := {| Bucket := bucket self; Key := key self |} in
  response <- call (EvS3Send getObjectCommand) (send s3Client getObjectCommand) ;;
  match Body response with
  | Some bytes => lift bytes
  | None =>
      throw (new_TypeError
               "Cannot read properties of undefined (reading 'transformToByteArray')")
  end.

(** The body of the second [try]: hand the bytes to the injected loader
    with the endpoint and the credential, nothing else. *)
Definition partition_stage (self : S3Loader) (filePath : string)
    (objectData : list byte) : M (list (Unstructured.Document number)) :=
  let options :=
    {| Unstructured.opt_apiUrl := Some (unstructuredAPIURL self);
       Unstructured.opt_apiKey := Some (unstructuredAPIKey self);
       Unstructured.opt_strategy := None;
       Unstructured.opt_encoding := None;
       Unstructured.opt_ocrLanguages := None;
       Unstructured.opt_coordinates := None;
       Unstructured.opt_pdfInferTableStructure := None;
       Unstructured.opt_xmlKeepTags := None |} in
  docs <- _UnstructuredLoader self filePath objectData options ;;
  ret docs.

Definition load (store : Store) (self : S3Loader)
  : M (list (Unstructured.Document number)) :=
  let filePath := key self in
  objectData <-
    try_catch (download store self)
      (λ e, throw (new_Error ("Failed to download file " +:+ key self
                              +:+ " from S3 bucket " +:+ bucket self
                              +:+ ": " +:+ err_message e))) ;;
  try_catch (partition_stage self filePath objectData)
    (λ _, throw (new_Error ("Failed to load file " +:+ filePath
                            +:+ " using unstructured loader."))).

(** The constructor's parameter object, [S3LoaderParams]. *)
Record S3LoaderParams : Type := MkS3LoaderParams {
  p_bucket : string;
  p_key : string;
  p_unstructuredAPIURL : string;
  p_unstructuredAPIKey : string;
  p_s3Config : option S3Config;
  p_UnstructuredLoader : option UnstructuredLoaderClass;
}.

(** The constructor: a missing [s3Config] defaults to [{}]
    ([empty_config]), a missing [UnstructuredLoader] to the default class,
    which calls into the runtime [rt]. *)
Definition new_S3Loader (empty_config : S3Config) (rt : Unstructured.Runtime number)
    (params : S3LoaderParams) : S3Loader :=
  {| bucket := p_bucket params;
     key := p_key params;
     unstructuredAPIURL := p_unstructuredAPIURL params;
     unstructuredAPIKey := p_unstructuredAPIKey params;
     s3Config := default empty_config (p_s3Config params);
     _UnstructuredLoader :=
       default (UnstructuredLoaderDefault rt) (p_UnstructuredLoader params) |}.
End Loader.
Arguments S3LoaderParams : clear implicits.
Arguments GetObjectOutput : clear implicits.
Arguments S3Client : clear implicits.
Arguments Store : clear implicits.
Arguments UnstructuredLoaderClass : clear implicits.
Arguments S3Loader : clear implicits.
End S3.

(** ** Vocabulary of the properties *)

Module Props.
Section Vocabulary.
Context {number : Type}.

(** [null] or [undefined]: the values a property cannot be read from. *)
Definition nullish (v : JsVal number) : bool :=
  match v with
  | JUndefined | JNull => true
  | _ => false
  end.

(** The [text] of an element, when the element has a string one. *)
Definition text_of (el : JsVal number) : option string :=
  match el with
  | JObj props =>
      match props !! "text" with
      | Some (JStr t) => Some t
      | _ => None
      end
  | _ => None
  end.

(** The retained elements are those with a string [text]. *)
Definition has_string_text (el : JsVal number) : bool :=
  match text_of el with
  | Some _ => true
  | None => false
  end.

(** The string [text]s of an array of elements, in the array's order. *)
Definition string_texts (els : list (JsVal number)) : list string :=
  omap text_of els.

(** A property of a plain object, [undefined] when absent. *)
Definition prop (props : gmap string (JsVal number)) (k : string) : JsVal number :=
  default JUndefined (props !! k).

(** [d] is the Output Record of element [el]: the content is the
    element's [text]; the attributes are the element's [metadata] with
    [category] set, last, to the element's [type]. *)
Definition is_record_of (el : JsVal number) (d : Unstructured.Document number) : Prop :=
  ∃ (props : gmap string (JsVal number)) (t : string),
    el = JObj props ∧ props !! "text" = Some (JStr t) ∧
    Unstructured.pageContent d = t ∧
    Unstructured.metadata d = <["category" := prop props "type"]> (spread (prop props "metadata")).

(** A [metadata] that is absent, [null], a boolean, a number, or an
    empty string or array. *)
Definition keyless (md : JsVal number) : Prop :=
  match md with
  | JUndefined | JNull | JBool _ | JNum _ => True
  | JStr s => s = ""
  | JArr items => items = []
  | JObj _ => False
  end.

(** [d] carries the text of [el] and, as attributes, the synthesized
    [category] alone. *)
Definition is_bare_record_of (el : JsVal number) (d : Unstructured.Document number) : Prop :=
  ∃ (props : gmap string (JsVal number)) (t : string),
    el = JObj props ∧ props !! "text" = Some (JStr t) ∧
    Unstructured.pageContent d = t ∧
    Unstructured.metadata d = {[ "category" := prop props "type" ]}.

(** Two errors are told apart by kind when their classes differ. *)
Definition distinguishable_by_kind (e1 e2 : JsError) : Prop :=
  err_class e1 ≠ err_class e2.

(** The record the loop pushes for the object [props] with text [t]. *)
Definition record (props : gmap string (JsVal number)) (t : string)
  : Unstructured.Document number :=
  {| Unstructured.pageContent := t;
     Unstructured.metadata :=
       <["category" := prop props "type"]> (spread (prop props "metadata")) |}.

(** The record of an element, when the element is retained. *)
Definition record_of_element (el : JsVal number) : option (Unstructured.Document number) :=
  match el with
  | JObj props =>
      match props !! "text" with
      | Some (JStr t) => Some (record props t)
      | _ => None
      end
  | _ => None
  end.
End Vocabulary.

Section Failures.
Context {number S3Config : Type}.
Implicit Types (store : S3.Store S3Config) (self : S3.S3Loader number S3Config).

(** The message of the error that wraps a partitioning-stage failure. *)
Definition load_failure_message (key : string) : string :=
  "Failed to load file " +:+ key +:+ " using unstructured loader.".

(** The ways the first [try] block can fail: building the client,
    sending the command, a missing body, reading the body. *)
Inductive download_fails store self : JsError → Prop :=
  | client_fails e :
      S3.S3Client_new store (S3.s3Config self) = Throw e →
      download_fails store self e
  | send_fails client e :
      S3.S3Client_new store (S3.s3Config self) = Normal client →
      S3.send client {| Bucket := S3.bucket self; Key := S3.key self |} = Throw e →
      download_fails store self e
  | body_missing client :
      S3.S3Client_new store (S3.s3Config self) = Normal client →
      S3.send client {| Bucket := S3.bucket self; Key := S3.key self |}
      = Normal {| S3.Body := None |} →
      download_fails store self
        (new_TypeError "Cannot read properties of undefined (reading 'transformToByteArray')")
  | read_fails client e :
      S3.S3Client_new store (S3.s3Config self) = Normal client →
      S3.send client {| Bucket := S3.bucket self; Key := S3.key self |}
      = Normal {| S3.Body := Some (Throw e) |} →
      download_fails store self e.
End Failures.

(** A field that is sent only under a condition. *)
Definition optional_field (name : string) (present : bool) (value : string) : FormData :=
  if present then [(name, FormString value)] else [].

Definition language_field (language : string) : string * FormValue :=
  ("ocr_languages", FormString language).

(** The names a form built by [_partition] can hold. *)
Definition field_names : list string :=
  ["files"; "strategy"; "ocr_languages"; "encoding"; "coordinates";
   "pdf_infer_table_structure"; "xml_keep_tags"].

(** The directory part in front of a final segment: every leading segment
    followed by a slash. *)
Fixpoint dir_of (segments : list string) : string :=
  match segments with
  | [] => ""
  | seg :: segs => seg +:+ "/" +:+ dir_of segs
  end.

(** [segments.join("/")] *)
Fixpoint join_slash (segments : list string) : string :=
  match segments with
  | [] => ""
  | [seg] => seg
  | seg :: segs => seg +:+ "/" +:+ join_slash segs
  end.

(** The options the S3 loader hands to the partitioning client: the
    endpoint and the credential, nothing else. *)
Definition endpoint_options (url key : string) : Unstructured.UnstructuredLoaderOptions :=
  {| Unstructured.opt_apiUrl := Some url;
     Unstructured.opt_apiKey := Some key;
     Unstructured.opt_strategy := None;
     Unstructured.opt_encoding := None;
     Unstructured.opt_ocrLanguages := None;
     Unstructured.opt_coordinates := None;
     Unstructured.opt_pdfInferTableStructure := None;
     Unstructured.opt_xmlKeepTags := None |}.

(** A string with no path separator in it. *)
Definition no_slash (s : string) : Prop := ¬ includes s "/".

(** [seg] is the final path segment of [path]: what follows the last
    slash, or the whole of [path] when it has none. *)
Definition final_segment_of (path seg : string) : Prop :=
  no_slash seg ∧ ∃ dir : string, path = dir +:+ seg ∧ (dir = "" ∨ ∃ d, dir = d +:+ "/").

End Props.
Export Props.

(** ** Concrete runs *)

Module Examples.
Import Unstructured S3.

(** A plain object from its properties. *)
Definition obj (fields : list (string * JsVal Z)) : JsVal Z := JObj (list_to_map fields).

(** A runtime whose [fetch] always resolves to [r]. *)
Definition serving (r : Response Z) : Runtime Z :=
  {| fetch := λ _, Normal r; number_toString := pretty |}.

(** A runtime whose [fetch] rejects. *)
Definition offline : Runtime Z :=
  {| fetch := λ _, Throw (new_TypeError "fetch failed"); number_toString := pretty |}.

(** A 200 response whose body decodes to [v]. *)
Definition ok_json (v : JsVal Z) : Response Z :=
  {| resp_ok := true; resp_status := 200; resp_text := Normal ""; resp_json := Normal v |}.

(** A 500 response with the plain-text body ["bad file"]. *)
Definition bad_file : Response Z :=
  {| resp_ok := false; resp_status := 500; resp_text := Normal "bad file";
     resp_json := Throw (MkError ClsSyntaxError "Unexpected token b in JSON" None) |}.

Definition title_and_marker : list (JsVal Z) :=
  [ obj [("type", JStr "Title"); ("text", JStr "Hello");
         ("metadata", obj [("page", JNum 1%Z)])];
    obj [("type", JStr "Marker")] ].

Definition report : UnstructuredWebLoader :=
  new "reports/q3/summary.pdf" [x25; x50; x44; x46]%byte no_options.

Definition tuned : UnstructuredWebLoader :=
  new "summary.pdf" []
    {| opt_apiKey := None; opt_apiUrl := None; opt_strategy := Some "fast";
       opt_encoding := None; opt_ocrLanguages := Some ["eng"; "fra"];
       opt_coordinates := Some true; opt_pdfInferTableStructure := None;
       opt_xmlKeepTags := Some false |}.

(** A store that delivers [bytes] for every key. *)
Definition holding (bytes : list byte) : Store unit :=
  {| S3Client_new := λ _, Normal {| send := λ _, Normal {| Body := Some (Normal bytes) |} |} |}.

(** A store whose [send] rejects. *)
Definition denying : Store unit :=
  {| S3Client_new := λ _,
       Normal {| send := λ _, Throw (MkError (ClsOther "AccessDenied") "Access Denied" None) |} |}.

(** An S3 loader with the default partitioning client over runtime [rt]. *)
Definition archive (rt : Runtime Z) : S3Loader Z unit :=
  {| bucket := "archive"; key := "reports/q3/summary.pdf";
     unstructuredAPIURL := "https://partition.example/general";
     unstructuredAPIKey := "k-123"; s3Config := tt;
     _UnstructuredLoader := UnstructuredLoaderDefault rt |}.

(** The parameters of [archive], with nothing injected. *)
Definition archive_params : S3LoaderParams Z unit :=
  {| p_bucket := "archive"; p_key := "reports/q3/summary.pdf";
     p_unstructuredAPIURL := "https://partition.example/general";
     p_unstructuredAPIKey := "k-123"; p_s3Config := None;
     p_UnstructuredLoader := None |}.

(** A store whose client cannot be built. *)
Definition misconfigured : Store unit :=
  {| S3Client_new := λ _, Throw (new_Error "Region is missing") |}.

(** A 200 response whose body is not JSON. *)
Definition not_json : Response Z :=
  {| resp_ok := true; resp_status := 200; resp_text := Normal "<html>";
     resp_json := Throw (MkError ClsSyntaxError "Unexpected token < in JSON" None) |}.

(** A 502 response whose body cannot be read. *)
Definition truncated : Response Z :=
  {| resp_ok := false; resp_status := 502;
     resp_text := Throw (new_TypeError "terminated");
     resp_json := Throw (new_TypeError "terminated") |}.
End Examples.

(** ** Strings *)

Lemma string_app_cons (c : ascii) (s t : string) : String c s +:+ t = String c (s +:+ t).
Proof. reflexivity. Qed.

Lemma string_app_nil_l (s : string) : "" +:+ s = s.
Proof. reflexivity. Qed.

Lemma string_app_nil_r (s : string) : s +:+ "" = s.
Proof.
  induction s as [|c s IH]; [reflexivity|].
  rewrite string_app_cons, IH. reflexivity.
Qed.

Lemma string_app_assoc (s t u : string) : (s +:+ t) +:+ u = s +:+ t +:+ u.
Proof.
  induction s as [|c s IH]; [reflexivity|].
  rewrite !string_app_cons, IH. reflexivity.
Qed.

Lemma includes_middle (before needle after : string) :
  includes (before +:+ needle +:+ after) needle.
Proof. exists before, after. reflexivity. Qed.

Lemma includes_suffix (before needle : string) : includes (before +:+ needle) needle.
Proof. exists before, "". rewrite string_app_nil_r. reflexivity. Qed.

Lemma includes_after (front haystack needle : string) :
  includes haystack needle → includes (front +:+ haystack) needle.
Proof.
  intros (before & after & ->). exists (front +:+ before), after.
  rewrite string_app_assoc. reflexivity.
Qed.

Lemma no_slash_empty : no_slash "".
Proof.
  intros (before & after & H). destruct before; discriminate H.
Qed.

Lemma no_slash_cons (c : ascii) (s : string) :
  Ascii.eqb c "/" = false → no_slash s → no_slash (String c s).
Proof.
  intros Hc Hs (before & after & H). destruct before as [|b before].
  - rewrite string_app_nil_l, string_app_cons in H. inversion H; subst c.
    rewrite Ascii.eqb_refl in Hc. discriminate Hc.
  - rewrite string_app_cons in H. inversion H; subst. apply Hs.
    exists before, after. reflexivity.
Qed.

(** ** [split] and [pop] *)

(** Splitting yields the leading segments and a final one, which has no
    separator; gluing them back with slashes gives the string. *)
Lemma split_on_slash (s : string) :
  ∃ (segs : list string) (seg : string),
    split_on "/" s = segs ++ [seg] ∧ no_slash seg ∧ s = dir_of segs +:+ seg.
Proof.
  induction s as [|c s (segs & seg & Hsplit & Hseg & Hs)].
  - exists [], "". split; [reflexivity|]. split; [apply no_slash_empty | reflexivity].
  - simpl. destruct (Ascii.eqb c "/") eqn:Hc.
    + exists ("" :: segs), seg. rewrite Hsplit. split; [reflexivity|].
      split; [exact Hseg|]. apply Ascii.eqb_eq in Hc. subst c.
      rewrite Hs at 1. reflexivity.
    + rewrite Hsplit. destruct segs as [|seg0 segs]; simpl.
      * exists [], (String c seg). split; [reflexivity|].
        split; [apply no_slash_cons; assumption|].
        rewrite Hs at 1. reflexivity.
      * exists (String c seg0 :: segs), seg. split; [reflexivity|].
        split; [exact Hseg|]. rewrite Hs at 1. reflexivity.
Qed.

Lemma dir_of_shape (segs : list string) : dir_of segs = "" ∨ ∃ d, dir_of segs = d +:+ "/".
Proof.
  induction segs as [|seg segs [IH | (d & IH)]]; [left; reflexivity | right..]; simpl.
  - exists seg. rewrite IH. reflexivity.
  - exists (seg +:+ "/" +:+ d). rewrite IH, !string_app_assoc. reflexivity.
Qed.

(** [path.split("/").pop()] is never [undefined]: it is the final segment. *)
Lemma pop_split_final (path : string) :
  ∃ seg : string, pop (split_on "/" path) = Some seg ∧ final_segment_of path seg.
Proof.
  destruct (split_on_slash path) as (segs & seg & Hsplit & Hseg & Hpath).
  exists seg. split.
  - unfold pop. rewrite Hsplit. apply last_snoc.
  - split; [exact Hseg|]. exists (dir_of segs). split; [exact Hpath | apply dir_of_shape].
Qed.

Lemma slash_split_unique (d d' seg seg' : string) :
  no_slash seg → no_slash seg' →
  d +:+ "/" +:+ seg = d' +:+ "/" +:+ seg' → seg = seg'.
Proof.
  intros Hseg Hseg'. revert d'.
  induction d as [|c d IH]; intros [|c' d'] H.
  - change (String "/" seg = String "/" seg') in H. injection H as H. exact H.
  - change (String "/" seg = String c' (d' +:+ "/" +:+ seg')) in H. injection H as _ H.
    exfalso. apply Hseg. exists d', seg'. exact H.
  - change (String c (d +:+ "/" +:+ seg) = String "/" seg') in H. injection H as _ H.
    exfalso. apply Hseg'. exists d, seg. symmetry. exact H.
  - change (String c (d +:+ "/" +:+ seg) = String c' (d' +:+ "/" +:+ seg')) in H.
    injection H as _ H. apply (IH d' H).
Qed.

(** A path has one final segment. *)
Lemma final_segment_unique (path seg seg' : string) :
  final_segment_of path seg → final_segment_of path seg' → seg = seg'.
Proof.
  intros (Hseg & dir & Hpath & Hdir) (Hseg' & dir' & Hpath' & Hdir').
  rewrite Hpath in Hpath'. clear Hpath.
  destruct Hdir as [-> | (d & ->)], Hdir' as [-> | (d' & ->)];
    rewrite ?string_app_nil_l, ?string_app_assoc in Hpath'.
  - exact Hpath'.
  - exfalso. apply Hseg. exists d', seg'. exact Hpath'.
  - exfalso. apply Hseg'. exists d, seg. symmetry. exact Hpath'.
  - eapply slash_split_unique; eassumption.
Qed.

(** ** The multipart form *)

Section Form.
Implicit Types (self : Unstructured.UnstructuredWebLoader) (formData : FormData).

Lemma forEach_languages (languages : list string) formData :
  fold_left (λ fd language, append "ocr_languages" (FormString language) fd)
    languages formData
  = formData ++ map language_field languages.
Proof.
  revert formData. induction languages as [|language languages IH]; intros formData; simpl.
  - rewrite app_nil_r. reflexivity.
  - rewrite IH. unfold append. rewrite <- app_assoc. reflexivity.
Qed.

(** The form in closed shape: the entries, in the order of the appends. *)
Lemma build_request_body self :
  req_body (Unstructured.build_request self)
  = ("files", FormFile (Unstructured.buffer self)
                (default "blob" (pop (split_on "/" (Unstructured.filePath self)))))
    :: ("strategy", FormString (Unstructured.strategy self))
    :: map language_field (Unstructured.ocrLanguages self)
    ++ optional_field "encoding" (truthy (default "" (Unstructured.encoding self)))
         (default "" (Unstructured.encoding self))
    ++ optional_field "coordinates" (Unstructured.is_true (Unstructured.coordinates self)) "true"
    ++ optional_field "pdf_infer_table_structure"
         (Unstructured.is_true (Unstructured.pdfInferTableStructure self)) "true"
    ++ optional_field "xml_keep_tags" (Unstructured.is_true (Unstructured.xmlKeepTags self)) "true".
Proof.
  unfold Unstructured.build_request, append_blob; simpl.
  rewrite forEach_languages. unfold append, optional_field.
  destruct (Unstructured.encoding self) as [[|c enc]|];
    destruct (Unstructured.is_true (Unstructured.coordinates self));
    destruct (Unstructured.is_true (Unstructured.pdfInferTableStructure self));
    destruct (Unstructured.is_true (Unstructured.xmlKeepTags self));
    simpl; rewrite <- ?app_assoc, ?app_nil_r; reflexivity.
Qed.

Lemma getAll_app (name : string) formData (more : FormData) :
  getAll name (formData ++ more) = getAll name formData ++ getAll name more.
Proof. unfold getAll. rewrite List.filter_app, map_app. reflexivity. Qed.

Lemma getAll_cons (name field : string) (value : FormValue) formData :
  getAll name ((field, value) :: formData)
  = if String.eqb field name then value :: getAll name formData else getAll name formData.
Proof. unfold getAll. simpl. destruct (String.eqb field name); reflexivity. Qed.

Lemma getAll_languages (languages : list string) :
  getAll "ocr_languages" (map language_field languages) = map FormString languages.
Proof.
  induction languages as [|language languages IH]; [reflexivity|].
  rewrite !map_cons. unfold language_field at 1. rewrite getAll_cons, IH. reflexivity.
Qed.

Lemma getAll_languages_other (name : string) (languages : list string) :
  String.eqb "ocr_languages" name = false →
  getAll name (map language_field languages) = [].
Proof.
  intros Hname. induction languages as [|language languages IH]; [reflexivity|].
  rewrite map_cons. unfold language_field at 1. rewrite getAll_cons, Hname. exact IH.
Qed.
End Form.

Lemma getAll_optional (name field : string) (present : bool) (value : string) :
  getAll name (optional_field field present value)
  = if present && String.eqb field name then [FormString value] else [].
Proof.
  destruct present; [|reflexivity]. unfold optional_field. rewrite getAll_cons.
  destruct (String.eqb field name); reflexivity.
Qed.

(** Decide the comparisons of field names that are literals. *)
Ltac decide_names :=
  repeat match goal with
         | |- context [String.eqb ?a ?b] =>
             let r := eval vm_compute in (String.eqb a b) in
             progress change (String.eqb a b) with r
         end.

(** Read one field off the closed shape of the form. *)
Ltac read_field :=
  rewrite build_request_body;
  rewrite ?getAll_cons, ?getAll_app, ?getAll_optional;
  rewrite ?getAll_languages, ?getAll_languages_other by reflexivity;
  decide_names; rewrite ?andb_false_r, ?andb_true_r; simpl; rewrite ?app_nil_r.

Lemma build_request_names (self : Unstructured.UnstructuredWebLoader) :
  Forall (λ entry, fst entry ∈ field_names) (req_body (Unstructured.build_request self)).
Proof.
  rewrite build_request_body. unfold optional_field, field_names.
  repeat first
    [ apply Forall_cons; split; [simpl; set_solver|]
    | apply Forall_app; split
    | apply Forall_nil; exact I
    | case_match ].
  all: try (apply Forall_forall; intros entry (language & -> & _)%list_elem_of_fmap;
            simpl; set_solver).
Qed.

Section Partition.
Context {number : Type}.
Implicit Types (rt : Unstructured.Runtime number) (self : Unstructured.UnstructuredWebLoader).

(** Whatever the service answers, [_partition] issues the one request. *)
Lemma partition_trace rt self :
  trace (Unstructured._partition rt self) = [EvFetch (Unstructured.build_request self)].
Proof.
  unfold Unstructured._partition, bind, call, lift, throw, trace.
  repeat case_match; simplify_eq/=; reflexivity.
Qed.
End Partition.

(** C2.  For every configuration, [_partition] issues a single POST whose
    multipart form holds: the binary payload in the [files] part, carrying
    the (final segment of the) file name as its filename; exactly one
    [strategy] entry, the configured strategy or [hi_res] when none was
    given; one [ocr_languages] entry per language code, in order; an
    [encoding] entry exactly when a truthy (non-empty) encoding was given;
    [coordinates], [pdf_infer_table_structure] and [xml_keep_tags] entries
    with the literal ["true"] exactly when the respective flag is [true],
    and no entry otherwise; no other field.  The credential header is always
    sent, as the empty string when no key was given. *)
Theorem partition_request_fields {number : Type} (rt : Unstructured.Runtime number)
    (filePath : string) (buffer : list byte)
    (options : Unstructured.UnstructuredLoaderOptions) :
  ∃ (request : Request) (seg : string),
    trace (Unstructured._partition rt (Unstructured.new filePath buffer options))
      = [EvFetch request] ∧
    req_method request = "POST" ∧
    req_url request
      = default "https://api.unstructured.io/general/v0/general"
          (Unstructured.opt_apiUrl options) ∧
    final_segment_of filePath seg ∧
    getAll "files" (req_body request) = [FormFile buffer seg] ∧
    getAll "strategy" (req_body request)
      = [FormString (default "hi_res" (Unstructured.opt_strategy options))] ∧
    getAll "ocr_languages" (req_body request)
      = map FormString (default [] (Unstructured.opt_ocrLanguages options)) ∧
    getAll "encoding" (req_body request)
      = match Unstructured.opt_encoding options with
        | Some (String c enc) => [FormString (String c enc)]
        | Some EmptyString | None => []
        end ∧
    getAll "coordinates" (req_body request)
      = match Unstructured.opt_coordinates options with
        | Some true => [FormString "true"]
        | Some false | None => []
        end ∧
    getAll "pdf_infer_table_structure" (req_body request)
      = match Unstructured.opt_pdfInferTableStructure options with
        | Some true => [FormString "true"]
        | Some false | None => []
        end ∧
    getAll "xml_keep_tags" (req_body request)
      = match Unstructured.opt_xmlKeepTags options with
        | Some true => [FormString "true"]
        | Some false | None => []
        end ∧
    Forall (λ entry, fst entry ∈ field_names) (req_body request) ∧
    req_headers request
      = {[ "UNSTRUCTURED-API-KEY" := default "" (Unstructured.opt_apiKey options) ]}.
Proof.
  destruct (pop_split_final filePath) as (seg & Hpop & Hseg).
  exists (Unstructured.build_request (Unstructured.new filePath buffer options)), seg.
  split; [apply partition_trace|].
  do 3 (split; [first [reflexivity | exact Hseg]|]).
  split; [read_field; rewrite Hpop; reflexivity|].
  split; [read_field; reflexivity|].
  split; [read_field; reflexivity|].
  split; [read_field; destruct (Unstructured.opt_encoding options) as [[|c enc]|]; reflexivity|].
  split; [read_field; destruct (Unstructured.opt_coordinates options) as [[|]|]; reflexivity|].
  split; [read_field;
          destruct (Unstructured.opt_pdfInferTableStructure options) as [[|]|]; reflexivity|].
  split; [read_field; destruct (Unstructured.opt_xmlKeepTags options) as [[|]|]; reflexivity|].
  split; [apply build_request_names | reflexivity].
Qed.

(** The configuration of the spec's first testable property. *)
Example tuned_request :
  req_body (Unstructured.build_request Examples.tuned)
  = [ ("files", FormFile [] "summary.pdf");
      ("strategy", FormString "fast");
      ("ocr_languages", FormString "eng");
      ("ocr_languages", FormString "fra");
      ("coordinates", FormString "true") ].
Proof. reflexivity. Qed.

(** ** The response *)

Section Response.
Context {number : Type}.
Implicit Types (rt : Unstructured.Runtime number) (self : Unstructured.UnstructuredWebLoader)
  (r : Unstructured.Response number) (el : JsVal number) (els : list (JsVal number))
  (docs : list (Unstructured.Document number)).

(** A thrown [_partition] is a thrown [load]. *)
Lemma load_partition_throws rt self (e : JsError) :
  outcome (Unstructured._partition rt self) = Throw e →
  Unstructured.load rt self = ([EvFetch (Unstructured.build_request self)], Throw e).
Proof.
  intros H. pose proof (partition_trace rt self) as Htrace.
  unfold Unstructured.load, bind. destruct (Unstructured._partition rt self) as [calls c].
  simpl in H, Htrace. subst. reflexivity.
Qed.

(** A non-success status: the body text is read and thrown back. *)
Lemma partition_not_ok rt self r (body : string) :
  Unstructured.fetch rt (Unstructured.build_request self) = Normal r →
  Unstructured.resp_ok r = false →
  Unstructured.resp_text r = Normal body →
  outcome (Unstructured._partition rt self)
  = Throw (new_Error ("Failed to partition file " +:+ Unstructured.filePath self
                      +:+ " with error " +:+ pretty (Unstructured.resp_status r)
                      +:+ " and message " +:+ body)).
Proof.
  intros Hfetch Hok Htext.
  unfold Unstructured._partition, bind, call, lift, throw, outcome.
  rewrite Hfetch, Hok, Htext. reflexivity.
Qed.

(** A success status with an array body: the filter decides. *)
Lemma partition_array rt self r els :
  Unstructured.fetch rt (Unstructured.build_request self) = Normal r →
  Unstructured.resp_ok r = true →
  Unstructured.resp_json r = Normal (JArr els) →
  outcome (Unstructured._partition rt self)
  = array_filter Unstructured.text_is_string els.
Proof.
  intros Hfetch Hok Hjson.
  unfold Unstructured._partition, bind, call, lift, throw, outcome.
  rewrite Hfetch, Hok, Hjson. reflexivity.
Qed.

Lemma load_array rt self r els :
  Unstructured.fetch rt (Unstructured.build_request self) = Normal r →
  Unstructured.resp_ok r = true →
  Unstructured.resp_json r = Normal (JArr els) →
  outcome (Unstructured.load rt self)
  = cbind (array_filter Unstructured.text_is_string els)
      (λ kept, Unstructured.load_loop kept []).
Proof.
  intros Hfetch Hok Hjson. pose proof (partition_array rt self r els Hfetch Hok Hjson) as H.
  unfold Unstructured.load, bind, lift, outcome in *.
  destruct (Unstructured._partition rt self) as [calls [kept|e]]; simpl in H; rewrite <- H;
    reflexivity.
Qed.

(** A success status with a body that is no array: the received value
    is converted to a string for the message. *)
Lemma partition_not_array rt self r (v : JsVal number) :
  Unstructured.fetch rt (Unstructured.build_request self) = Normal r →
  Unstructured.resp_ok r = true →
  Unstructured.resp_json r = Normal v →
  (∀ items, v ≠ JArr items) →
  outcome (Unstructured._partition rt self)
  = cbind (to_string (Unstructured.number_toString rt) v) (λ shown,
      Throw (new_Error ("Expected partitioning request to return an array, but got "
                        +:+ shown))).
Proof.
  intros Hfetch Hok Hjson Hv.
  unfold Unstructured._partition, bind, call, lift, throw, outcome.
  rewrite Hfetch, Hok, Hjson. simpl.
  destruct v; try (destruct (to_string _ _); reflexivity).
  exfalso. eapply Hv. reflexivity.
Qed.

(** *** The filter *)

Lemma text_is_string_spec el :
  nullish el = false → Unstructured.text_is_string el = Normal (has_string_text el).
Proof.
  destruct el as [| | | | | |props]; intros H; try discriminate H; try reflexivity.
  unfold Unstructured.text_is_string, has_string_text. simpl.
  destruct (props !! "text") as [[]|]; reflexivity.
Qed.

Lemma text_is_string_nullish el :
  nullish el = true → ∃ e, Unstructured.text_is_string el = Throw e ∧ err_class e = ClsTypeError.
Proof.
  destruct el; intros H; try discriminate H; eexists; split; reflexivity.
Qed.

Lemma filter_non_nullish els :
  Forall (λ el, nullish el = false) els →
  array_filter Unstructured.text_is_string els = Normal (List.filter has_string_text els).
Proof.
  induction 1 as [|el els Hel _ IH]; [reflexivity|].
  simpl. rewrite (text_is_string_spec el Hel), IH. simpl.
  destruct (has_string_text el); reflexivity.
Qed.

Lemma filter_returned els (kept : list (JsVal number)) :
  array_filter Unstructured.text_is_string els = Normal kept →
  kept = List.filter has_string_text els.
Proof.
  revert kept. induction els as [|el els IH]; intros kept H; simpl in H.
  - injection H as <-. reflexivity.
  - destruct (nullish el) eqn:Hel.
    + destruct (text_is_string_nullish el Hel) as (e & He & _). rewrite He in H. discriminate H.
    + rewrite (text_is_string_spec el Hel) in H. simpl in H.
      destruct (array_filter Unstructured.text_is_string els) as [kept'|e]; [|discriminate H].
      simpl in H. injection H as <-. simpl. rewrite <- (IH kept' eq_refl).
      destruct (has_string_text el); reflexivity.
Qed.

(** *** The loop *)

Lemma load_loop_step (props : gmap string (JsVal number)) (t : string) els docs :
  props !! "text" = Some (JStr t) →
  Unstructured.load_loop (JObj props :: els) docs
  = Unstructured.load_loop els (docs ++ [record props t]).
Proof. intros H. simpl. rewrite H. reflexivity. Qed.

(** On elements that all have a string [text], the loop returns, with
    one record per element, in order. *)
Lemma load_loop_retained els docs :
  Forall (λ el, has_string_text el = true) els →
  ∃ pushed, Unstructured.load_loop els docs = Normal (docs ++ pushed) ∧
            Forall2 is_record_of els pushed.
Proof.
  intros H. revert docs. induction H as [|el els Hel _ IH]; intros docs.
  - exists []. rewrite app_nil_r. split; [reflexivity | constructor].
  - unfold has_string_text, text_of in Hel.
    destruct el as [| | | | | |props]; try discriminate Hel.
    destruct (props !! "text") as [[| | | |t| |]|] eqn:Htext; try discriminate Hel.
    destruct (IH (docs ++ [record props t])) as (pushed & Hloop & Hrec).
    exists (record props t :: pushed). split.
    + rewrite (load_loop_step props t els docs Htext), Hloop, <- app_assoc. reflexivity.
    + constructor; [|exact Hrec]. exists props, t. repeat split; [exact Htext].
Qed.

Lemma filter_retained els :
  Forall (λ el, has_string_text el = true) (List.filter has_string_text els).
Proof.
  apply List.Forall_forall. intros el Hin. apply List.filter_In in Hin. tauto.
Qed.
End Response.

Section Records.
Context {number : Type}.
Implicit Types (rt : Unstructured.Runtime number) (self : Unstructured.UnstructuredWebLoader)
  (r : Unstructured.Response number) (el : JsVal number) (els : list (JsVal number))
  (docs : list (Unstructured.Document number)).

(** Whatever the service answers, [load] issues the one request. *)
Lemma load_trace rt self :
  trace (Unstructured.load rt self) = [EvFetch (Unstructured.build_request self)].
Proof.
  pose proof (partition_trace rt self) as H.
  unfold Unstructured.load, bind, lift, trace in *.
  destruct (Unstructured._partition rt self) as [calls [kept|e]]; simpl in *; subst;
    reflexivity.
Qed.

(** On an array with no [null] in it, [load] returns one record per
    retained element, in order. *)
Lemma load_non_nullish rt self r els :
  Unstructured.fetch rt (Unstructured.build_request self) = Normal r →
  Unstructured.resp_ok r = true →
  Unstructured.resp_json r = Normal (JArr els) →
  Forall (λ el, nullish el = false) els →
  ∃ docs, outcome (Unstructured.load rt self) = Normal docs ∧
          Forall2 is_record_of (List.filter has_string_text els) docs.
Proof.
  intros Hfetch Hok Hjson Hels.
  rewrite (load_array rt self r els Hfetch Hok Hjson), (filter_non_nullish els Hels). simpl.
  destruct (load_loop_retained (List.filter has_string_text els) [] (filter_retained els))
    as (pushed & Hloop & Hrec).
  exists pushed. split; [exact Hloop | exact Hrec].
Qed.

(** Whenever [load] returns, it returned one record per retained element,
    in order. *)
Lemma load_returned rt self r els docs :
  Unstructured.fetch rt (Unstructured.build_request self) = Normal r →
  Unstructured.resp_ok r = true →
  Unstructured.resp_json r = Normal (JArr els) →
  outcome (Unstructured.load rt self) = Normal docs →
  Forall2 is_record_of (List.filter has_string_text els) docs.
Proof.
  intros Hfetch Hok Hjson Hload.
  rewrite (load_array rt self r els Hfetch Hok Hjson) in Hload.
  destruct (array_filter Unstructured.text_is_string els) as [kept|e] eqn:Hfilter;
    [|discriminate Hload].
  apply filter_returned in Hfilter. subst kept. simpl in Hload.
  destruct (load_loop_retained (List.filter has_string_text els) [] (filter_retained els))
    as (pushed & Hloop & Hrec).
  rewrite Hloop in Hload. injection Hload as <-. exact Hrec.
Qed.

Lemma records_contents els docs :
  Forall2 is_record_of (List.filter has_string_text els) docs →
  map Unstructured.pageContent docs = string_texts els.
Proof.
  revert docs. induction els as [|el els IH]; intros docs H; simpl in H.
  - inversion H. reflexivity.
  - unfold string_texts. simpl. unfold has_string_text in H.
    destruct (text_of el) as [t|] eqn:Htext.
    + inversion H as [|? d ? docs' (props & t' & -> & Ht' & Hd & _) Hrest]; subst.
      simpl in Htext. rewrite Ht' in Htext. injection Htext as Htext.
      rewrite map_cons, Htext. f_equal. apply IH, Hrest.
    + apply IH, H.
Qed.
End Records.

(** ** Claims on the partitioning client *)

(** C1 (amended).  For every 2xx response whose body deserializes to an
    array with no [null] element, [load] issues its one request and returns
    exactly one record per element whose [text] is a string, in order, the
    record's content being that element's [text]; every other element
    (an object without a string [text], a number, a string, ...) is dropped
    without an error.  The response
    [[{"type":"Title","text":"Hello","metadata":{"page":1}}, {"type":"Marker"}]]
    yields the single record [{content:"Hello", attributes:{page:1, category:"Title"}}]. *)
Theorem partition_keeps_string_texts {number : Type} (rt : Unstructured.Runtime number)
    (self : Unstructured.UnstructuredWebLoader) (r : Unstructured.Response number)
    (els : list (JsVal number)) :
  Unstructured.fetch rt (Unstructured.build_request self) = Normal r →
  Unstructured.resp_ok r = true →
  Unstructured.resp_json r = Normal (JArr els) →
  Forall (λ el, nullish el = false) els →
  ∃ docs : list (Unstructured.Document number),
    Unstructured.load rt self = ([EvFetch (Unstructured.build_request self)], Normal docs) ∧
    map Unstructured.pageContent docs = string_texts els ∧
    ∀ page : number,
      els = [ JObj {[ "type" := JStr "Title"; "text" := JStr "Hello";
                      "metadata" := JObj {[ "page" := JNum page ]} ]};
              JObj {[ "type" := JStr "Marker" ]} ] →
      docs = [ {| Unstructured.pageContent := "Hello";
                  Unstructured.metadata := {[ "page" := JNum page; "category" := JStr "Title" ]} |} ].
Proof.
  intros Hfetch Hok Hjson Hels.
  destruct (load_non_nullish rt self r els Hfetch Hok Hjson Hels) as (docs & Hload & Hrec).
  exists docs. split; [|split].
  - rewrite <- Hload, <- (load_trace rt self). unfold outcome, trace.
    destruct (Unstructured.load rt self); reflexivity.
  - apply records_contents, Hrec.
  - intros page ->.
    rewrite (load_array rt self r _ Hfetch Hok Hjson) in Hload.
    vm_compute in Hload. injection Hload as <-. vm_compute. reflexivity.
Qed.

Lemma partition_keeps_string_texts_witness :
  ∃ docs : list (Unstructured.Document Z),
    Unstructured.load (Examples.serving (Examples.ok_json (JArr Examples.title_and_marker)))
      Examples.report
    = ([EvFetch (Unstructured.build_request Examples.report)], Normal docs) ∧
    map Unstructured.pageContent docs = ["Hello"].
Proof.
  destruct (partition_keeps_string_texts
              (Examples.serving (Examples.ok_json (JArr Examples.title_and_marker)))
              Examples.report (Examples.ok_json (JArr Examples.title_and_marker))
              Examples.title_and_marker eq_refl eq_refl eq_refl)
    as (docs & Hload & Htexts & _).
  - repeat constructor.
  - exists docs. split; [exact Hload | exact Htexts].
Defined.

(** C1, as stated, fails on the array [[null]]: reading [text] from the
    [null] element throws, so the element is not dropped silently. *)
Lemma partition_null_element_throws :
  outcome (Unstructured.load (Examples.serving (Examples.ok_json (JArr [JNull])))
             Examples.report)
  = Throw (new_TypeError "Cannot read properties of null (reading 'text')") ∧
  ¬ ∃ docs, outcome (Unstructured.load (Examples.serving (Examples.ok_json (JArr [JNull])))
                       Examples.report) = Normal docs.
Proof.
  split; [reflexivity|]. intros (docs & H). vm_compute in H. discriminate H.
Qed.

(** C7.  For every decoded element array: [load] returns when no element
    is [null], and whenever it returns, the output sequence is, in the
    service's order, exactly one record per retained element (nothing
    reordered, merged or dropped), each record's attributes being the
    element's [metadata] with the key [category] set to the element's
    [type]; the synthesized value wins over a [category] that [metadata]
    already holds. *)
Theorem load_order_and_category {number : Type} (rt : Unstructured.Runtime number)
    (self : Unstructured.UnstructuredWebLoader) (r : Unstructured.Response number)
    (els : list (JsVal number)) :
  Unstructured.fetch rt (Unstructured.build_request self) = Normal r →
  Unstructured.resp_ok r = true →
  Unstructured.resp_json r = Normal (JArr els) →
  (Forall (λ el, nullish el = false) els →
   ∃ docs, outcome (Unstructured.load rt self) = Normal docs) ∧
  ∀ docs : list (Unstructured.Document number),
    outcome (Unstructured.load rt self) = Normal docs →
    Forall2 (λ el d,
               is_record_of el d ∧
               ∀ props m, el = JObj props → props !! "metadata" = Some (JObj m) →
                 Unstructured.metadata d = <["category" := prop props "type"]> m ∧
                 Unstructured.metadata d !! "category" = Some (prop props "type"))
      (List.filter has_string_text els) docs.
Proof.
  intros Hfetch Hok Hjson. split.
  - intros Hels.
    destruct (load_non_nullish rt self r els Hfetch Hok Hjson Hels) as (docs & Hload & _).
    exists docs. exact Hload.
  - intros docs Hload.
    eapply Forall2_impl; [exact (load_returned rt self r els docs Hfetch Hok Hjson Hload)|].
    intros el d Hrec. split; [exact Hrec|].
    intros props m -> Hm. destruct Hrec as (props' & t & Heq & _ & _ & Hmeta).
    injection Heq as <-. rewrite Hmeta. unfold prop at 2. rewrite Hm. simpl.
    split; [reflexivity | apply lookup_insert_eq].
Qed.

(** Metadata [category: "X"] with element type ["Y"] yields [category: "Y"];
    the two elements keep their order and the duplicate is kept. *)
Lemma load_order_and_category_witness :
  let el := Examples.obj [("type", JStr "Y"); ("text", JStr "same");
                          ("metadata", Examples.obj [("category", JStr "X")])] in
  let rt := Examples.serving (Examples.ok_json (JArr [el; JNum 7%Z; el])) in
  ∃ d, outcome (Unstructured.load rt Examples.report) = Normal [d; d] ∧
       Unstructured.pageContent d = "same" ∧
       Unstructured.metadata d = {[ "category" := JStr "Y" ]}.
Proof.
  intros el rt.
  destruct (load_order_and_category rt Examples.report
              (Examples.ok_json (JArr [el; JNum 7%Z; el])) [el; JNum 7%Z; el]
              eq_refl eq_refl eq_refl) as [Hreturns Hrecords].
  destruct Hreturns as (docs & Hload); [repeat constructor|].
  specialize (Hrecords docs Hload).
  vm_compute in Hload. injection Hload as <-.
  eexists. split; [reflexivity|]. split; reflexivity.
Defined.

(** C9, as stated, fails on a [metadata] that is a string: it is not an
    object, yet spreading it contributes one key per code unit. *)
Lemma string_metadata_spreads :
  let el := Examples.obj [("type", JStr "T"); ("text", JStr "t"); ("metadata", JStr "ab")] in
  ∃ d, outcome (Unstructured.load (Examples.serving (Examples.ok_json (JArr [el])))
                  Examples.report) = Normal [d] ∧
       Unstructured.metadata d
       = {[ "0" := JStr "a"; "1" := JStr "b"; "category" := JStr "T" ]} ∧
       Unstructured.metadata d ≠ {[ "category" := JStr "T" ]}.
Proof.
  intros el. eexists. split; [reflexivity|]. split; [reflexivity|].
  intros H. apply (f_equal (λ m : gmap string (JsVal Z), m !! "0")) in H.
  vm_compute in H. discriminate H.
Qed.



(** The string conversion succeeds on every value that is neither an
    array nor an object with its own [toString]. *)
Lemma to_string_plain {number : Type} (number_toString : number → string) (v : JsVal number) :
  (∀ items, v ≠ JArr items) →
  (∀ props, v = JObj props → props !! "toString" = None) →
  ∃ shown, to_string number_toString v = Normal shown ∧
           (∀ props, v = JObj props → shown = "[object Object]") ∧
           (∀ s, v = JStr s → shown = s) ∧
           (v = JNull → shown = "null").
Proof.
  intros Harr Hobj. destruct v as [| |[|]| | |items|props]; simpl.
  1-6: eexists; split; [reflexivity|]; repeat split; intros; congruence.
  - exfalso. eapply Harr. reflexivity.
  - rewrite (Hobj props eq_refl). eexists. split; [reflexivity|].
    repeat split; intros; congruence.
Qed.

(** C5 (amended).  For every 2xx response whose deserialized body is not an
    array, and is not an object that carries a [toString] property of its
    own, [load] fails with the shape error and returns no records; the
    message ends with the string conversion of what was received:
    ["[object Object]"] for an object such as [{"foo":"bar"}], the string
    itself for a string, ["null"] for [null]. *)
Theorem partition_shape_error {number : Type} (rt : Unstructured.Runtime number)
    (self : Unstructured.UnstructuredWebLoader) (r : Unstructured.Response number)
    (v : JsVal number) :
  Unstructured.fetch rt (Unstructured.build_request self) = Normal r →
  Unstructured.resp_ok r = true →
  Unstructured.resp_json r = Normal v →
  (∀ items, v ≠ JArr items) →
  (∀ props, v = JObj props → props !! "toString" = None) →
  ∃ shown : string,
    Unstructured.load rt self
    = ([EvFetch (Unstructured.build_request self)],
       Throw (new_Error ("Expected partitioning request to return an array, but got "
                         +:+ shown))) ∧
    to_string (Unstructured.number_toString rt) v = Normal shown ∧
    (∀ props, v = JObj props → shown = "[object Object]") ∧
    (∀ s, v = JStr s → shown = s) ∧
    (v = JNull → shown = "null").
Proof.
  intros Hfetch Hok Hjson Harr Hobj.
  destruct (to_string_plain (Unstructured.number_toString rt) v Harr Hobj)
    as (shown & Hshown & Hcases).
  exists shown. split; [|split; [exact Hshown | exact Hcases]].
  apply load_partition_throws.
  rewrite (partition_not_array rt self r v Hfetch Hok Hjson Harr), Hshown. reflexivity.
Qed.

Lemma partition_shape_error_witness :
  Unstructured.load
    (Examples.serving (Examples.ok_json (Examples.obj [("foo", JStr "bar")])))
    Examples.report
  = ([EvFetch (Unstructured.build_request Examples.report)],
     Throw (new_Error
              "Expected partitioning request to return an array, but got [object Object]")).
Proof.
  destruct (partition_shape_error
              (Examples.serving (Examples.ok_json (Examples.obj [("foo", JStr "bar")])))
              Examples.report (Examples.ok_json (Examples.obj [("foo", JStr "bar")]))
              (Examples.obj [("foo", JStr "bar")]) eq_refl eq_refl eq_refl)
    as (shown & Hload & _ & Hobject & _).
  - intros items H. discriminate H.
  - intros props H. injection H as <-. reflexivity.
  - rewrite Hload, (Hobject _ eq_refl). reflexivity.
Defined.

(** C5, as stated, fails on the body [{"toString":"x"}]: it is not an
    array, yet converting it for the message throws a [TypeError], so the
    error raised is not the shape error and describes nothing received. *)
Lemma partition_unprintable_body :
  outcome (Unstructured.load
             (Examples.serving (Examples.ok_json (Examples.obj [("toString", JStr "x")])))
             Examples.report)
  = Throw (new_TypeError "Cannot convert object to primitive value") ∧
  ¬ ∃ shown : string,
      outcome (Unstructured.load
                 (Examples.serving (Examples.ok_json (Examples.obj [("toString", JStr "x")])))
                 Examples.report)
      = Throw (new_Error ("Expected partitioning request to return an array, but got "
                          +:+ shown)).
Proof.
  split; [reflexivity|]. intros (shown & H). vm_compute in H. discriminate H.
Qed.

(** ** The two stages of the S3 loader *)

Section Stages.
Context {number S3Config : Type}.
Implicit Types (store : S3.Store S3Config) (self : S3.S3Loader number S3Config)
  (e : JsError) (bytes : list byte).

Lemma download_fails_iff store self e :
  download_fails store self e ↔ outcome (S3.download store self) = Throw e.
Proof.
  unfold S3.download, bind, lift, call, throw, outcome. split.
  - intros [e' H | client e' H1 H2 | client H1 H2 | client e' H1 H2];
      rewrite ?H, ?H1, ?H2; reflexivity.
  - destruct (S3.S3Client_new store (S3.s3Config self)) as [client|e'] eqn:Hnew; simpl.
    + destruct (S3.send client _) as [[[[data|e']|]]|e'] eqn:Hsend; simpl; intros H;
        simplify_eq; [eapply read_fails | eapply body_missing | eapply send_fails]; eassumption.
    + intros H. simplify_eq. apply client_fails, Hnew.
Qed.

(** The first stage talks to the store only. *)
Lemma download_trace store self :
  trace (S3.download store self) = [] ∨
  trace (S3.download store self)
  = [EvS3Send {| Bucket := S3.bucket self; Key := S3.key self |}].
Proof.
  unfold S3.download, bind, lift, call, throw, trace.
  repeat case_match; simplify_eq/=; auto.
Qed.

Lemma download_ok_trace store self bytes :
  outcome (S3.download store self) = Normal bytes →
  trace (S3.download store self)
  = [EvS3Send {| Bucket := S3.bucket self; Key := S3.key self |}].
Proof.
  unfold S3.download, bind, lift, call, throw, trace, outcome.
  repeat case_match; simplify_eq/=; intros; simplify_eq; reflexivity.
Qed.

(** When the download throws, the second stage is never entered. *)
Lemma load_download_throws store self e :
  outcome (S3.download store self) = Throw e →
  S3.load store self
  = (trace (S3.download store self),
     Throw (new_Error ("Failed to download file " +:+ S3.key self
                       +:+ " from S3 bucket " +:+ S3.bucket self
                       +:+ ": " +:+ err_message e))).
Proof.
  unfold S3.load, bind, try_catch, throw, outcome, trace.
  destruct (S3.download store self) as [calls c]. simpl. intros ->.
  simpl. rewrite app_nil_r. reflexivity.
Qed.

(** When the download returns, the second stage decides. *)
Lemma load_download_returns store self bytes :
  outcome (S3.download store self) = Normal bytes →
  S3.load store self
  = (trace (S3.download store self) ++ trace (S3.partition_stage self (S3.key self) bytes),
     match outcome (S3.partition_stage self (S3.key self) bytes) with
     | Normal docs => Normal docs
     | Throw _ => Throw (new_Error (load_failure_message (S3.key self)))
     end).
Proof.
  unfold S3.load, bind, try_catch, throw, outcome, trace.
  destruct (S3.download store self) as [calls c]. simpl. intros ->.
  destruct (S3.partition_stage self (S3.key self) bytes) as [calls' [docs|e]]; simpl;
    rewrite ?app_nil_r; reflexivity.
Qed.

Lemma messages_differ (key key' bucket' cause' : string) :
  load_failure_message key
  ≠ "Failed to download file " +:+ key' +:+ " from S3 bucket " +:+ bucket'
    +:+ ": " +:+ cause'.
Proof.
  intros H. apply (f_equal (substring 10 1)) in H. vm_compute in H. discriminate H.
Qed.
End Stages.

(** ** Claims on the orchestration *)

(** C6.  Whenever the store fetch fails (building the client, sending the
    command, or materializing the body), [load] fails with the retrieval
    error, whose message names the key, the bucket and the message of the
    underlying cause; the calls [load] issued are those of the download
    alone, so no partitioning request is among them. *)
Theorem load_retrieval_error {number S3Config : Type} (store : S3.Store S3Config)
    (self : S3.S3Loader number S3Config) (e : JsError) :
  download_fails store self e →
  ∃ message : string,
    outcome (S3.load store self) = Throw (new_Error message) ∧
    includes message (S3.key self) ∧
    includes message (S3.bucket self) ∧
    includes message (err_message e) ∧
    trace (S3.load store self) = trace (S3.download store self) ∧
    Forall (λ ev, is_fetch ev = false) (trace (S3.load store self)).
Proof.
  intros Hfails%download_fails_iff.
  rewrite (load_download_throws store self e Hfails).
  eexists. split; [reflexivity|].
  split; [apply includes_middle|].
  split; [do 2 apply includes_after; apply includes_middle|].
  split; [do 4 apply includes_after; apply includes_suffix|].
  split; [reflexivity|]. unfold trace at 1. simpl.
  destruct (download_trace store self) as [-> | ->]; repeat constructor.
Qed.

Lemma load_retrieval_error_witness :
  ∃ message : string,
    outcome (S3.load Examples.denying (Examples.archive (Examples.serving Examples.bad_file)))
    = Throw (new_Error message) ∧
    includes message "reports/q3/summary.pdf" ∧
    includes message "archive" ∧
    includes message "Access Denied" ∧
    trace (S3.load Examples.denying (Examples.archive (Examples.serving Examples.bad_file)))
    = [EvS3Send {| Bucket := "archive"; Key := "reports/q3/summary.pdf" |}] ∧
    Forall (λ ev, is_fetch ev = false)
      (trace (S3.load Examples.denying (Examples.archive (Examples.serving Examples.bad_file)))).
Proof.
  apply (load_retrieval_error Examples.denying
           (Examples.archive (Examples.serving Examples.bad_file))
           (MkError (ClsOther "AccessDenied") "Access Denied" None)).
  eapply send_fails; reflexivity.
Defined.

(** C3 (amended).  Whenever retrieval succeeds and the partitioning stage
    fails, [load] fails with a plain [Error] whose message is
    ["Failed to load file <key> using unstructured loader."].  The error
    raised on a retrieval failure is a plain [Error] too: the two have the
    same kind, and are told apart by their messages, which always differ. *)
Theorem load_partitioning_stage_error {number S3Config : Type} (store : S3.Store S3Config)
    (self : S3.S3Loader number S3Config) (bytes : list byte) (e : JsError) :
  outcome (S3.download store self) = Normal bytes →
  outcome (S3.partition_stage self (S3.key self) bytes) = Throw e →
  ∃ stage_error : JsError,
    outcome (S3.load store self) = Throw stage_error ∧
    stage_error = new_Error (load_failure_message (S3.key self)) ∧
    ∀ (store' : S3.Store S3Config) (self' : S3.S3Loader number S3Config) (e' : JsError),
      download_fails store' self' e' →
      ∃ retrieval_error : JsError,
        outcome (S3.load store' self') = Throw retrieval_error ∧
        err_class stage_error = err_class retrieval_error ∧
        err_message stage_error ≠ err_message retrieval_error.
Proof.
  intros Hdown Hstage. eexists. split; [|split; [reflexivity|]].
  - rewrite (load_download_returns store self bytes Hdown). unfold outcome at 1. simpl.
    rewrite Hstage. reflexivity.
  - intros store' self' e' Hfails%download_fails_iff.
    rewrite (load_download_throws store' self' e' Hfails).
    eexists. split; [reflexivity|]. split; [reflexivity | apply messages_differ].
Qed.

Lemma load_partitioning_stage_error_witness :
  outcome (S3.load (Examples.holding [x25; x50]%byte)
             (Examples.archive (Examples.serving Examples.bad_file)))
  = Throw (new_Error "Failed to load file reports/q3/summary.pdf using unstructured loader.").
Proof.
  destruct (load_partitioning_stage_error (Examples.holding [x25; x50]%byte)
              (Examples.archive (Examples.serving Examples.bad_file)) [x25; x50]%byte
              (new_Error
                 "Failed to partition file reports/q3/summary.pdf with error 500 and message bad file")
              eq_refl eq_refl)
    as (stage_error & Hload & -> & _).
  exact Hload.
Defined.

(** C3, as stated, fails: on a store that denies access and on a store that
    delivers bytes the service then refuses, the two errors raised by [load]
    have one and the same kind. *)
Lemma stage_errors_share_kind :
  ∃ stage_error retrieval_error : JsError,
    outcome (S3.load (Examples.holding [x25; x50]%byte)
               (Examples.archive (Examples.serving Examples.bad_file)))
    = Throw stage_error ∧
    outcome (S3.load Examples.denying (Examples.archive (Examples.serving Examples.bad_file)))
    = Throw retrieval_error ∧
    ¬ distinguishable_by_kind stage_error retrieval_error.
Proof.
  do 2 eexists. split; [reflexivity|]. split; [reflexivity|].
  intros H. apply H. reflexivity.
Qed.

(** C10.  Whenever the partitioning stage of [load] fails, the error raised
    keeps nothing of the underlying failure: it is a plain [Error] with no
    cause, its message is the fixed template around the file path, and any
    two partitioning-stage failures for the same key, whatever their causes,
    raise the very same error. *)
Theorem load_discards_partition_cause {number S3Config : Type} (store : S3.Store S3Config)
    (self : S3.S3Loader number S3Config) (bytes : list byte) (e : JsError) :
  outcome (S3.download store self) = Normal bytes →
  outcome (S3.partition_stage self (S3.key self) bytes) = Throw e →
  ∃ raised : JsError,
    outcome (S3.load store self) = Throw raised ∧
    err_message raised
    = "Failed to load file " +:+ S3.key self +:+ " using unstructured loader." ∧
    err_cause raised = None ∧
    err_class raised = ClsError ∧
    ∀ (store2 : S3.Store S3Config) (self2 : S3.S3Loader number S3Config)
      (bytes2 : list byte) (e2 : JsError),
      S3.key self2 = S3.key self →
      outcome (S3.download store2 self2) = Normal bytes2 →
      outcome (S3.partition_stage self2 (S3.key self2) bytes2) = Throw e2 →
      outcome (S3.load store2 self2) = Throw raised.
Proof.
  intros Hdown Hstage. exists (new_Error (load_failure_message (S3.key self))).
  split; [|repeat split].
  - rewrite (load_download_returns store self bytes Hdown). unfold outcome at 1. simpl.
    rewrite Hstage. reflexivity.
  - intros store2 self2 bytes2 e2 Hkey Hdown2 Hstage2.
    rewrite (load_download_returns store2 self2 bytes2 Hdown2). unfold outcome at 1. simpl.
    rewrite Hstage2, Hkey. reflexivity.
Qed.

(** A refused file and an unreachable service raise the same error. *)
Lemma load_discards_partition_cause_witness :
  outcome (S3.load (Examples.holding [x25; x50]%byte)
             (Examples.archive (Examples.serving Examples.bad_file)))
  = outcome (S3.load (Examples.holding [])
               (Examples.archive Examples.offline)).
Proof.
  destruct (load_discards_partition_cause (Examples.holding [x25; x50]%byte)
              (Examples.archive (Examples.serving Examples.bad_file)) [x25; x50]%byte
              (new_Error
                 "Failed to partition file reports/q3/summary.pdf with error 500 and message bad file")
              eq_refl eq_refl)
    as (raised & Hload & _ & _ & _ & Hsame).
  rewrite Hload.
  rewrite (Hsame (Examples.holding []) (Examples.archive Examples.offline) []
             (new_TypeError "fetch failed") eq_refl eq_refl eq_refl).
  reflexivity.
Defined.

(** C8.  For every file name, the filename of the outgoing [files] part is
    the final path segment of the name: what follows its last slash.  The
    orchestrator fetches the object under the original key, untrimmed, and
    only the request to the partitioning service carries the trimmed name. *)
Theorem wire_filename_and_store_key {number S3Config : Type} :
  (∀ (filePath : string) (buffer : list byte)
     (options : Unstructured.UnstructuredLoaderOptions),
     ∃ seg : string,
       final_segment_of filePath seg ∧
       getAll "files"
         (req_body (Unstructured.build_request (Unstructured.new filePath buffer options)))
       = [FormFile buffer seg]) ∧
  (∀ (store : S3.Store S3Config) (rt : Unstructured.Runtime number)
     (self : S3.S3Loader number S3Config) (bytes : list byte),
     S3._UnstructuredLoader self = S3.UnstructuredLoaderDefault rt →
     outcome (S3.download store self) = Normal bytes →
     ∃ (request : Request) (seg : string),
       trace (S3.load store self)
       = [EvS3Send {| Bucket := S3.bucket self; Key := S3.key self |}; EvFetch request] ∧
       final_segment_of (S3.key self) seg ∧
       getAll "files" (req_body request) = [FormFile bytes seg]).
Proof.
  assert (∀ filePath buffer options, ∃ seg : string,
             final_segment_of filePath seg ∧
             getAll "files"
               (req_body (Unstructured.build_request
                            (Unstructured.new filePath buffer options)))
             = [FormFile buffer seg]) as Hclient.
  { intros filePath buffer options.
    destruct (pop_split_final filePath) as (seg & Hpop & Hseg).
    exists seg. split; [exact Hseg|]. read_field. rewrite Hpop. reflexivity. }
  split; [exact Hclient|].
  intros store rt self bytes Hdefault Hdown.
  set (options := {| Unstructured.opt_apiUrl := Some (S3.unstructuredAPIURL self);
                     Unstructured.opt_apiKey := Some (S3.unstructuredAPIKey self);
                     Unstructured.opt_strategy := None;
                     Unstructured.opt_encoding := None;
                     Unstructured.opt_ocrLanguages := None;
                     Unstructured.opt_coordinates := None;
                     Unstructured.opt_pdfInferTableStructure := None;
                     Unstructured.opt_xmlKeepTags := None |}).
  destruct (Hclient (S3.key self) bytes options) as (seg & Hseg & Hfiles).
  exists (Unstructured.build_request (Unstructured.new (S3.key self) bytes options)), seg.
  split; [|split; [exact Hseg | exact Hfiles]].
  rewrite (load_download_returns store self bytes Hdown). unfold trace at 1. simpl.
  rewrite (download_ok_trace store self bytes Hdown). simpl. f_equal.
  unfold S3.partition_stage. rewrite Hdefault. unfold S3.UnstructuredLoaderDefault.
  fold options.
  pose proof (load_trace rt (Unstructured.new (S3.key self) bytes options)) as Htrace.
  unfold trace, bind, ret in *.
  destruct (Unstructured.load rt (Unstructured.new (S3.key self) bytes options))
    as [calls [docs|e]]; simpl in *; rewrite ?app_nil_r; exact Htrace.
Qed.

Lemma wire_filename_and_store_key_witness :
  ∃ request : Request,
    trace (S3.load (Examples.holding [x25; x50]%byte)
             (Examples.archive (Examples.serving Examples.bad_file)))
    = [EvS3Send {| Bucket := "archive"; Key := "reports/q3/summary.pdf" |}; EvFetch request] ∧
    getAll "files" (req_body request) = [FormFile [x25; x50]%byte "summary.pdf"].
Proof.
  destruct (proj2 (@wire_filename_and_store_key Z unit) (Examples.holding [x25; x50]%byte)
              (Examples.serving Examples.bad_file)
              (Examples.archive (Examples.serving Examples.bad_file)) [x25; x50]%byte
              eq_refl eq_refl)
    as (request & seg & Htrace & _ & _).
  exists request. split; [exact Htrace|].
  vm_compute in Htrace. injection Htrace as <-. reflexivity.
Defined.

(** ** Further properties of the partitioning client *)

(** X1.  Failures of the transport and of reading the body are not wrapped:
    when [fetch] rejects, when [text()] rejects on a non-success response,
    and when [json()] rejects on a success response, [load] fails with that
    very error, after its one request.  In the second case the status code
    is lost with it. *)
Theorem transport_failures_propagate {number : Type} (rt : Unstructured.Runtime number)
    (self : Unstructured.UnstructuredWebLoader) (e : JsError) :
  (Unstructured.fetch rt (Unstructured.build_request self) = Throw e →
   Unstructured.load rt self = ([EvFetch (Unstructured.build_request self)], Throw e)) ∧
  (∀ r : Unstructured.Response number,
     Unstructured.fetch rt (Unstructured.build_request self) = Normal r →
     Unstructured.resp_ok r = false →
     Unstructured.resp_text r = Throw e →
     Unstructured.load rt self = ([EvFetch (Unstructured.build_request self)], Throw e)) ∧
  (∀ r : Unstructured.Response number,
     Unstructured.fetch rt (Unstructured.build_request self) = Normal r →
     Unstructured.resp_ok r = true →
     Unstructured.resp_json r = Throw e →
     Unstructured.load rt self = ([EvFetch (Unstructured.build_request self)], Throw e)).
Proof.
  split; [|split].
  - intros Hfetch. apply load_partition_throws.
    unfold Unstructured._partition, bind, call, outcome. rewrite Hfetch. reflexivity.
  - intros r Hfetch Hok Htext. apply load_partition_throws.
    unfold Unstructured._partition, bind, call, lift, outcome.
    rewrite Hfetch, Hok, Htext. reflexivity.
  - intros r Hfetch Hok Hjson. apply load_partition_throws.
    unfold Unstructured._partition, bind, call, lift, outcome.
    rewrite Hfetch, Hok, Hjson. reflexivity.
Qed.

Lemma transport_failures_propagate_witness :
  outcome (Unstructured.load Examples.offline Examples.report)
  = Throw (new_TypeError "fetch failed") ∧
  outcome (Unstructured.load (Examples.serving Examples.truncated) Examples.report)
  = Throw (new_TypeError "terminated") ∧
  outcome (Unstructured.load (Examples.serving Examples.not_json) Examples.report)
  = Throw (MkError ClsSyntaxError "Unexpected token < in JSON" None).
Proof.
  split; [|split].
  - rewrite (proj1 (transport_failures_propagate Examples.offline Examples.report
                      (new_TypeError "fetch failed")) eq_refl).
    reflexivity.
  - rewrite (proj1 (proj2 (transport_failures_propagate
                             (Examples.serving Examples.truncated) Examples.report
                             (new_TypeError "terminated")))
               Examples.truncated eq_refl eq_refl eq_refl).
    reflexivity.
  - rewrite (proj2 (proj2 (transport_failures_propagate
                             (Examples.serving Examples.not_json) Examples.report
                             (MkError ClsSyntaxError "Unexpected token < in JSON" None)))
               Examples.not_json eq_refl eq_refl eq_refl).
    reflexivity.
Defined.

Lemma filter_returned_non_nullish {number : Type} (els kept : list (JsVal number)) :
  array_filter Unstructured.text_is_string els = Normal kept →
  Forall (λ el, nullish el = false) els.
Proof.
  revert kept. induction els as [|el els IH]; intros kept H; [constructor|].
  simpl in H. destruct (nullish el) eqn:Hel.
  - destruct (text_is_string_nullish el Hel) as (e & He & _). rewrite He in H. discriminate H.
  - constructor; [exact Hel|]. rewrite (text_is_string_spec el Hel) in H. simpl in H.
    destruct (array_filter Unstructured.text_is_string els) as [kept'|e]; [|discriminate H].
    apply (IH kept' eq_refl).
Qed.

Lemma filter_nullish_throws {number : Type} (els : list (JsVal number)) :
  Exists (λ el, nullish el = true) els →
  ∃ e, array_filter Unstructured.text_is_string els = Throw e ∧ err_class e = ClsTypeError.
Proof.
  induction els as [|el els IH]; intros H; [inversion H|].
  simpl. destruct (nullish el) eqn:Hel.
  - destruct (text_is_string_nullish el Hel) as (e & He & Hcls). rewrite He.
    exists e. split; [reflexivity | exact Hcls].
  - rewrite (text_is_string_spec el Hel). simpl.
    apply Exists_cons in H as [H | H]; [congruence|].
    destruct (IH H) as (e & -> & Hcls). exists e. split; [reflexivity | exact Hcls].
Qed.

(** X2.  On a 2xx array response, [load] returns documents exactly when no
    element of the array is [null]; a single [null] anywhere in the array
    makes the whole call fail with a [TypeError], whatever the other
    elements are: no partial result is returned. *)
Theorem load_returns_iff_no_null {number : Type} (rt : Unstructured.Runtime number)
    (self : Unstructured.UnstructuredWebLoader) (r : Unstructured.Response number)
    (els : list (JsVal number)) :
  Unstructured.fetch rt (Unstructured.build_request self) = Normal r →
  Unstructured.resp_ok r = true →
  Unstructured.resp_json r = Normal (JArr els) →
  ((∃ docs, outcome (Unstructured.load rt self) = Normal docs) ↔
   Forall (λ el, nullish el = false) els) ∧
  (Exists (λ el, nullish el = true) els →
   ∃ e, outcome (Unstructured.load rt self) = Throw e ∧ err_class e = ClsTypeError).
Proof.
  intros Hfetch Hok Hjson. rewrite (load_array rt self r els Hfetch Hok Hjson).
  split; [split|].
  - intros (docs & H).
    destruct (array_filter Unstructured.text_is_string els) as [kept|e] eqn:Hfilter;
      [|discriminate H].
    eapply filter_returned_non_nullish, Hfilter.
  - intros Hels.
    destruct (load_non_nullish rt self r els Hfetch Hok Hjson Hels) as (docs & Hload & _).
    rewrite (load_array rt self r els Hfetch Hok Hjson) in Hload. exists docs. exact Hload.
  - intros Hnull. destruct (filter_nullish_throws els Hnull) as (e & -> & Hcls).
    exists e. split; [reflexivity | exact Hcls].
Qed.

Lemma load_returns_iff_no_null_witness :
  ∃ e, outcome (Unstructured.load
                  (Examples.serving
                     (Examples.ok_json (JArr (Examples.title_and_marker ++ [JNull]))))
                  Examples.report) = Throw e ∧
       err_class e = ClsTypeError.
Proof.
  apply (load_returns_iff_no_null
           (Examples.serving (Examples.ok_json (JArr (Examples.title_and_marker ++ [JNull]))))
           Examples.report
           (Examples.ok_json (JArr (Examples.title_and_marker ++ [JNull])))
           (Examples.title_and_marker ++ [JNull]) eq_refl eq_refl eq_refl).
  apply Exists_app. right. constructor. reflexivity.
Defined.

(** X3.  On a 2xx response whose body is an object that carries a
    [toString] property of its own, building the message of the shape error
    throws: [load] fails with a [TypeError] and the shape error is never
    raised. *)
Theorem load_unprintable_object {number : Type} (rt : Unstructured.Runtime number)
    (self : Unstructured.UnstructuredWebLoader) (r : Unstructured.Response number)
    (props : gmap string (JsVal number)) :
  Unstructured.fetch rt (Unstructured.build_request self) = Normal r →
  Unstructured.resp_ok r = true →
  Unstructured.resp_json r = Normal (JObj props) →
  is_Some (props !! "toString") →
  Unstructured.load rt self
  = ([EvFetch (Unstructured.build_request self)],
     Throw (new_TypeError "Cannot convert object to primitive value")).
Proof.
  intros Hfetch Hok Hjson (x & Hx). apply load_partition_throws.
  rewrite (partition_not_array rt self r (JObj props) Hfetch Hok Hjson)
    by (intros items H; discriminate H).
  simpl. rewrite Hx. reflexivity.
Qed.

Lemma load_unprintable_object_witness :
  outcome (Unstructured.load
             (Examples.serving
                (Examples.ok_json (Examples.obj [("error", JStr "busy"); ("toString", JNull)])))
             Examples.report)
  = Throw (new_TypeError "Cannot convert object to primitive value").
Proof.
  rewrite (load_unprintable_object
             (Examples.serving
                (Examples.ok_json (Examples.obj [("error", JStr "busy"); ("toString", JNull)])))
             Examples.report
             (Examples.ok_json (Examples.obj [("error", JStr "busy"); ("toString", JNull)]))
             (list_to_map [("error", JStr "busy"); ("toString", JNull)])
             eq_refl eq_refl eq_refl).
  - reflexivity.
  - eexists. reflexivity.
Defined.

(** X4.  Whenever [load] returns, every record carries a [category] key
    (holding [undefined] when the element has no [type]), and, for an
    element whose [metadata] is an object, every other key of the record is
    a key of that [metadata], with the same value: nothing but [category] is
    added, nothing is removed, and the element's own [type] and [text] do
    not leak into the attributes. *)
Theorem records_preserve_metadata {number : Type} (rt : Unstructured.Runtime number)
    (self : Unstructured.UnstructuredWebLoader) (r : Unstructured.Response number)
    (els : list (JsVal number)) (docs : list (Unstructured.Document number)) :
  Unstructured.fetch rt (Unstructured.build_request self) = Normal r →
  Unstructured.resp_ok r = true →
  Unstructured.resp_json r = Normal (JArr els) →
  outcome (Unstructured.load rt self) = Normal docs →
  Forall2 (λ el d,
             ∀ props, el = JObj props →
               Unstructured.metadata d !! "category" = Some (prop props "type") ∧
               ∀ m, props !! "metadata" = Some (JObj m) →
                 dom (Unstructured.metadata d) = {["category"]} ∪ dom m ∧
                 ∀ k, k ≠ "category" → Unstructured.metadata d !! k = m !! k)
    (List.filter has_string_text els) docs.
Proof.
  intros Hfetch Hok Hjson Hload.
  eapply Forall2_impl; [exact (load_returned rt self r els docs Hfetch Hok Hjson Hload)|].
  intros el d (props' & t & -> & _ & _ & Hmeta) props Heq. injection Heq as <-.
  rewrite Hmeta. split; [apply lookup_insert_eq|].
  intros m Hm. unfold prop at 2 4. rewrite Hm. simpl. split.
  - apply dom_insert_L.
  - intros k Hk. apply lookup_insert_ne. congruence.
Qed.

Lemma records_preserve_metadata_witness :
  let el := Examples.obj [("type", JStr "Title"); ("text", JStr "Hello");
                          ("metadata", Examples.obj [("page", JNum 4%Z);
                                                     ("category", JStr "X")])] in
  ∃ d, outcome (Unstructured.load (Examples.serving (Examples.ok_json (JArr [el])))
                  Examples.report) = Normal [d] ∧
       Unstructured.metadata d !! "page" = Some (JNum 4%Z) ∧
       Unstructured.metadata d !! "category" = Some (JStr "Title") ∧
       Unstructured.metadata d !! "type" = None ∧
       Unstructured.metadata d !! "text" = None.
Proof.
  intros el. eexists. split; [reflexivity|].
  pose proof (records_preserve_metadata
                (Examples.serving (Examples.ok_json (JArr [el]))) Examples.report
                (Examples.ok_json (JArr [el])) [el] _ eq_refl eq_refl eq_refl eq_refl) as H.
  apply Forall2_cons_1 in H as [H _].
  destruct (H _ eq_refl) as [Hcategory Hkeys].
  destruct (Hkeys (list_to_map [("page", JNum 4%Z); ("category", JStr "X")]) eq_refl)
    as [_ Hother].
  split; [|split; [exact Hcategory|split]].
  - rewrite (Hother "page") by discriminate. reflexivity.
  - rewrite (Hother "type") by discriminate. reflexivity.
  - rewrite (Hother "text") by discriminate. reflexivity.
Defined.

Lemma records_cons {number : Type} (el : JsVal number) (els : list (JsVal number)) :
  omap record_of_element (el :: els)
  = match record_of_element el with
    | Some d => d :: omap record_of_element els
    | None => omap record_of_element els
    end.
Proof. reflexivity. Qed.

Lemma retained_iff_record {number : Type} (el : JsVal number) :
  has_string_text el = match record_of_element el with Some _ => true | None => false end.
Proof.
  unfold has_string_text, text_of, record_of_element.
  destruct el as [| | | | | |props]; try reflexivity.
  destruct (props !! "text") as [[]|]; reflexivity.
Qed.

Lemma load_loop_closed_form {number : Type} (els : list (JsVal number))
    (docs : list (Unstructured.Document number)) :
  Forall (λ el, nullish el = false) els →
  Unstructured.load_loop (List.filter has_string_text els) docs
  = Normal (docs ++ omap record_of_element els).
Proof.
  intros H. revert docs. induction H as [|el els Hel _ IH]; intros docs; simpl.
  - rewrite app_nil_r. reflexivity.
  - unfold has_string_text, text_of, record_of_element.
    destruct el as [| | | | | |props]; try discriminate Hel; try apply IH.
    destruct (props !! "text") as [[| | | |t| |]|] eqn:Htext; try apply IH.
    rewrite (load_loop_step props t _ docs Htext), IH, <- app_assoc. reflexivity.
Qed.

(** X5.  On a 2xx array response with no [null] element, the documents
    [load] returns are a function of the array alone: each element maps to
    at most one record, independently of its neighbours, and the records
    are collected in order.  So there are never more documents than
    elements, and adding or removing elements without a string [text]
    leaves the result unchanged. *)
Theorem load_closed_form {number : Type} (rt : Unstructured.Runtime number)
    (self : Unstructured.UnstructuredWebLoader) (r : Unstructured.Response number)
    (els : list (JsVal number)) :
  Unstructured.fetch rt (Unstructured.build_request self) = Normal r →
  Unstructured.resp_ok r = true →
  Unstructured.resp_json r = Normal (JArr els) →
  Forall (λ el, nullish el = false) els →
  outcome (Unstructured.load rt self) = Normal (omap record_of_element els) ∧
  (length (omap record_of_element els) ≤ length els)%nat ∧
  omap record_of_element (List.filter has_string_text els) = omap record_of_element els.
Proof.
  intros Hfetch Hok Hjson Hels. split; [|split].
  - rewrite (load_array rt self r els Hfetch Hok Hjson), (filter_non_nullish els Hels).
    simpl. apply (load_loop_closed_form els [] Hels).
  - clear. induction els as [|el els IH]; [reflexivity|].
    rewrite records_cons. destruct (record_of_element el); simpl; lia.
  - clear. induction els as [|el els IH]; [reflexivity|].
    rewrite records_cons.
    change (List.filter has_string_text (el :: els))
      with (if has_string_text el then el :: List.filter has_string_text els
            else List.filter has_string_text els).
    rewrite (retained_iff_record el).
    destruct (record_of_element el) as [d|] eqn:Hd; [|exact IH].
    rewrite records_cons, Hd, IH. reflexivity.
Qed.

Lemma load_closed_form_witness :
  outcome (Unstructured.load
             (Examples.serving (Examples.ok_json (JArr Examples.title_and_marker)))
             Examples.report)
  = Normal (omap record_of_element Examples.title_and_marker).
Proof.
  apply (load_closed_form
           (Examples.serving (Examples.ok_json (JArr Examples.title_and_marker)))
           Examples.report (Examples.ok_json (JArr Examples.title_and_marker))
           Examples.title_and_marker eq_refl eq_refl eq_refl).
  repeat constructor.
Defined.

(** X6.  [split("/")] never returns an empty array, none of its segments
    holds a slash, and joining the segments with slashes gives the string
    back: nothing of the path is lost by splitting it. *)
Theorem split_join_round_trip (s : string) :
  split_on "/" s ≠ [] ∧
  Forall no_slash (split_on "/" s) ∧
  join_slash (split_on "/" s) = s.
Proof.
  induction s as [|c s (Hne & Hsegs & Hjoin)].
  - split; [discriminate|]. split; [repeat constructor; apply no_slash_empty | reflexivity].
  - simpl. destruct (Ascii.eqb c "/") eqn:Hc.
    + apply Ascii.eqb_eq in Hc. subst c. split; [discriminate|].
      split; [constructor; [apply no_slash_empty | exact Hsegs]|].
      destruct (split_on "/" s) as [|seg segs]; [contradiction|].
      change (join_slash ("" :: seg :: segs)) with ("" +:+ "/" +:+ join_slash (seg :: segs)).
      rewrite Hjoin. reflexivity.
    + destruct (split_on "/" s) as [|seg segs]; [contradiction|].
      split; [discriminate|]. apply Forall_cons in Hsegs as [Hseg Hsegs].
      split; [constructor; [apply no_slash_cons; assumption | exact Hsegs]|].
      rewrite <- Hjoin. destruct segs as [|seg' segs]; reflexivity.
Qed.

Lemma final_segment_whole (path : string) : no_slash path → final_segment_of path path.
Proof. intros H. split; [exact H|]. exists "". split; [reflexivity | left; reflexivity]. Qed.

Lemma final_segment_after_slash (dir name : string) :
  no_slash name → final_segment_of (dir +:+ "/" +:+ name) name.
Proof.
  intros H. split; [exact H|]. exists (dir +:+ "/").
  split; [rewrite string_app_assoc; reflexivity | right; exists dir; reflexivity].
Qed.

(** X7.  The filename of the [files] part: a file path with no slash is
    sent whole; of a path [dir/name] only [name] is sent, so a path that
    ends with a slash is sent with the empty filename. *)
Theorem wire_filename_cases (filePath : string) (buffer : list byte)
    (options : Unstructured.UnstructuredLoaderOptions) :
  (no_slash filePath →
   getAll "files" (req_body (Unstructured.build_request
                               (Unstructured.new filePath buffer options)))
   = [FormFile buffer filePath]) ∧
  (∀ dir name : string,
     filePath = dir +:+ "/" +:+ name → no_slash name →
     getAll "files" (req_body (Unstructured.build_request
                                 (Unstructured.new filePath buffer options)))
     = [FormFile buffer name]) ∧
  (∀ dir : string,
     filePath = dir +:+ "/" →
     getAll "files" (req_body (Unstructured.build_request
                                 (Unstructured.new filePath buffer options)))
     = [FormFile buffer ""]).
Proof.
  destruct (pop_split_final filePath) as (seg & Hpop & Hseg).
  assert (getAll "files" (req_body (Unstructured.build_request
                                      (Unstructured.new filePath buffer options)))
          = [FormFile buffer seg]) as Hfiles.
  { read_field. rewrite Hpop. reflexivity. }
  rewrite Hfiles. split; [|split].
  - intros Hwhole. rewrite (final_segment_unique filePath seg filePath Hseg);
      [reflexivity | apply final_segment_whole, Hwhole].
  - intros dir name -> Hname.
    rewrite (final_segment_unique _ seg name Hseg); [reflexivity|].
    apply final_segment_after_slash, Hname.
  - intros dir ->.
    rewrite (final_segment_unique _ seg "" Hseg); [reflexivity|].
    rewrite <- (string_app_nil_r (dir +:+ "/")), string_app_assoc.
    apply final_segment_after_slash, no_slash_empty.
Qed.

Lemma wire_filename_cases_witness :
  getAll "files" (req_body (Unstructured.build_request
                              (Unstructured.new "inbox/2024/" [x25]%byte
                                 Unstructured.no_options)))
  = [FormFile [x25]%byte ""].
Proof.
  apply (proj2 (proj2 (wire_filename_cases "inbox/2024/" [x25]%byte Unstructured.no_options))
           "inbox/2024").
  reflexivity.
Defined.

(** X8.  The entries of the form come in a fixed order: the file, the
    strategy, the languages in the order given, then, of those that are
    sent, the encoding, the coordinates flag, the table-structure flag and
    the XML-tags flag. *)
Theorem form_entries_in_order (filePath : string) (buffer : list byte)
    (options : Unstructured.UnstructuredLoaderOptions) :
  ∃ seg : string,
    final_segment_of filePath seg ∧
    req_body (Unstructured.build_request (Unstructured.new filePath buffer options))
    = ("files", FormFile buffer seg)
      :: ("strategy", FormString (default "hi_res" (Unstructured.opt_strategy options)))
      :: map language_field (default [] (Unstructured.opt_ocrLanguages options))
      ++ optional_field "encoding"
           (truthy (default "" (Unstructured.opt_encoding options)))
           (default "" (Unstructured.opt_encoding options))
      ++ optional_field "coordinates"
           (Unstructured.is_true (Unstructured.opt_coordinates options)) "true"
      ++ optional_field "pdf_infer_table_structure"
           (Unstructured.is_true (Unstructured.opt_pdfInferTableStructure options)) "true"
      ++ optional_field "xml_keep_tags"
           (Unstructured.is_true (Unstructured.opt_xmlKeepTags options)) "true".
Proof.
  destruct (pop_split_final filePath) as (seg & Hpop & Hseg).
  exists seg. split; [exact Hseg|].
  rewrite build_request_body. simpl. rewrite Hpop. reflexivity.
Qed.

(** ** Further properties of the S3 loader *)

Section Orchestration.
Context {number S3Config : Type}.
Implicit Types (store : S3.Store S3Config) (self : S3.S3Loader number S3Config)
  (rt : Unstructured.Runtime number) (params : S3.S3LoaderParams number S3Config)
  (bytes : list byte).

(** With the default class, the second stage is the partitioning client's
    [load] on the key, the bytes, the endpoint and the credential. *)
Lemma partition_stage_default self rt (filePath : string) bytes :
  S3._UnstructuredLoader self = S3.UnstructuredLoaderDefault rt →
  S3.partition_stage self filePath bytes
  = Unstructured.load rt
      (Unstructured.new filePath bytes
         (endpoint_options (S3.unstructuredAPIURL self) (S3.unstructuredAPIKey self))).
Proof.
  intros Hdefault. unfold S3.partition_stage. rewrite Hdefault.
  unfold S3.UnstructuredLoaderDefault, endpoint_options, bind, ret.
  destruct (Unstructured.load rt _) as [calls [docs|e]]; simpl; rewrite ?app_nil_r;
    reflexivity.
Qed.

(** A download whose three steps succeed. *)
Lemma download_returns store self (client : S3.S3Client) bytes :
  S3.S3Client_new store (S3.s3Config self) = Normal client →
  S3.send client {| Bucket := S3.bucket self; Key := S3.key self |}
  = Normal {| S3.Body := Some (Normal bytes) |} →
  S3.download store self
  = ([EvS3Send {| Bucket := S3.bucket self; Key := S3.key self |}], Normal bytes).
Proof.
  intros Hnew Hsend. unfold S3.download, bind, lift, call. rewrite Hnew. simpl.
  rewrite Hsend. reflexivity.
Qed.
End Orchestration.

(** X9.  Provided that what the store's client throws is an error object
    (so that the first handler can read its message), whatever loader class
    is injected, an error thrown by [S3Loader.load] is a plain [Error]
    without cause, and its message is one of two: the download message,
    exactly when the first stage failed, or the load message, exactly when
    the first stage delivered bytes and the second stage failed.  No error
    object of the store, of the runtime or of the partitioning client
    reaches the caller as it was thrown. *)
Theorem s3_load_error_kinds {number S3Config : Type} (store : S3.Store S3Config)
    (self : S3.S3Loader number S3Config) (e : JsError) :
  outcome (S3.load store self) = Throw e →
  err_class e = ClsError ∧
  err_cause e = None ∧
  ((∃ cause : JsError,
      download_fails store self cause ∧
      err_message e = "Failed to download file " +:+ S3.key self +:+ " from S3 bucket "
                      +:+ S3.bucket self +:+ ": " +:+ err_message cause) ∨
   (∃ (bytes : list byte) (cause : JsError),
      outcome (S3.download store self) = Normal bytes ∧
      outcome (S3.partition_stage self (S3.key self) bytes) = Throw cause ∧
      err_message e = load_failure_message (S3.key self))).
Proof.
  destruct (outcome (S3.download store self)) as [bytes|cause] eqn:Hdown.
  - rewrite (load_download_returns store self bytes Hdown). unfold outcome at 1. simpl.
    destruct (outcome (S3.partition_stage self (S3.key self) bytes)) as [docs|cause] eqn:Hstage;
      intros H; [discriminate H|]. injection H as <-.
    split; [reflexivity|]. split; [reflexivity|]. right. exists bytes, cause.
    split; [reflexivity|]. split; [exact Hstage | reflexivity].
  - rewrite (load_download_throws store self cause Hdown). unfold outcome at 1. simpl.
    intros H. injection H as <-.
    split; [reflexivity|]. split; [reflexivity|]. left. exists cause.
    split; [apply download_fails_iff, Hdown | reflexivity].
Qed.

(** A store whose client cannot be built: the error names the download. *)
Lemma s3_load_error_kinds_witness :
  ∃ cause : JsError,
    download_fails Examples.misconfigured
      (Examples.archive (Examples.serving Examples.bad_file)) cause.
Proof.
  destruct (s3_load_error_kinds Examples.misconfigured
              (Examples.archive (Examples.serving Examples.bad_file))
              (new_Error
                 "Failed to download file reports/q3/summary.pdf from S3 bucket archive: Region is missing")
              eq_refl)
    as (_ & _ & [(cause & Hfails & _) | (bytes & cause & Hdown & _)]).
  - exists cause. exact Hfails.
  - vm_compute in Hdown. discriminate Hdown.
Defined.

(** X10.  End to end: a loader built by the constructor with no class
    injected, whose store delivers the object and whose partitioning service
    answers 2xx with an array free of [null], issues exactly the get-object
    command for its bucket and key and then the one partitioning request,
    and returns the records of the array's elements, in order.  A missing
    [s3Config] reaches the client as the empty configuration. *)
Theorem s3_load_end_to_end {number S3Config : Type} (empty_config : S3Config)
    (rt : Unstructured.Runtime number) (store : S3.Store S3Config)
    (params : S3.S3LoaderParams number S3Config) (client : S3.S3Client)
    (bytes : list byte) (r : Unstructured.Response number) (els : list (JsVal number)) :
  let request :=
    Unstructured.build_request
      (Unstructured.new (S3.p_key params) bytes
         (endpoint_options (S3.p_unstructuredAPIURL params) (S3.p_unstructuredAPIKey params))) in
  S3.p_UnstructuredLoader params = None →
  S3.S3Client_new store (default empty_config (S3.p_s3Config params)) = Normal client →
  S3.send client {| Bucket := S3.p_bucket params; Key := S3.p_key params |}
  = Normal {| S3.Body := Some (Normal bytes) |} →
  Unstructured.fetch rt request = Normal r →
  Unstructured.resp_ok r = true →
  Unstructured.resp_json r = Normal (JArr els) →
  Forall (λ el, nullish el = false) els →
  S3.load store (S3.new_S3Loader empty_config rt params)
  = ([EvS3Send {| Bucket := S3.p_bucket params; Key := S3.p_key params |}; EvFetch request],
     Normal (omap record_of_element els)).
Proof.
  intros request Hnone Hnew Hsend Hfetch Hok Hjson Hels.
  set (self := S3.new_S3Loader empty_config rt params).
  assert (S3._UnstructuredLoader self = S3.UnstructuredLoaderDefault rt) as Hdefault.
  { unfold self, S3.new_S3Loader. simpl. rewrite Hnone. reflexivity. }
  pose proof (download_returns store self client bytes Hnew Hsend) as Hdown.
  assert (outcome (S3.download store self) = Normal bytes) as Hout by (rewrite Hdown; reflexivity).
  rewrite (load_download_returns store self bytes Hout), Hdown.
  rewrite (partition_stage_default self rt (S3.key self) bytes Hdefault).
  change (Unstructured.new (S3.key self) bytes
            (endpoint_options (S3.unstructuredAPIURL self) (S3.unstructuredAPIKey self)))
    with (Unstructured.new (S3.p_key params) bytes
            (endpoint_options (S3.p_unstructuredAPIURL params)
               (S3.p_unstructuredAPIKey params))).
  rewrite load_trace, (load_array rt _ r els Hfetch Hok Hjson), (filter_non_nullish els Hels).
  simpl. rewrite (load_loop_closed_form els [] Hels). reflexivity.
Qed.

Lemma s3_load_end_to_end_witness :
  S3.load (Examples.holding [x25; x50]%byte)
    (S3.new_S3Loader tt
       (Examples.serving (Examples.ok_json (JArr Examples.title_and_marker)))
       Examples.archive_params)
  = ([EvS3Send {| Bucket := "archive"; Key := "reports/q3/summary.pdf" |};
      EvFetch (Unstructured.build_request
                 (Unstructured.new "reports/q3/summary.pdf" [x25; x50]%byte
                    (endpoint_options "https://partition.example/general" "k-123")))],
     Normal (omap record_of_element Examples.title_and_marker)).
Proof.
  apply (s3_load_end_to_end tt
           (Examples.serving (Examples.ok_json (JArr Examples.title_and_marker)))
           (Examples.holding [x25; x50]%byte) Examples.archive_params
           {| S3.send := λ _, Normal {| S3.Body := Some (Normal [x25; x50]%byte) |} |}
           [x25; x50]%byte (Examples.ok_json (JArr Examples.title_and_marker))
           Examples.title_and_marker eq_refl eq_refl eq_refl eq_refl eq_refl eq_refl).
  repeat constructor.
Defined.

(** X11.  The request the S3 loader causes, whatever the service answers:
    a POST to the configured endpoint, with the configured credential as
    its only header, whose form holds the downloaded bytes under the final
    segment of the key, and the strategy [hi_res]; no language, encoding or
    flag is ever sent on this path. *)
Theorem s3_request_content {number S3Config : Type} (empty_config : S3Config)
    (rt : Unstructured.Runtime number) (store : S3.Store S3Config)
    (params : S3.S3LoaderParams number S3Config) (client : S3.S3Client)
    (bytes : list byte) :
  S3.p_UnstructuredLoader params = None →
  S3.S3Client_new store (default empty_config (S3.p_s3Config params)) = Normal client →
  S3.send client {| Bucket := S3.p_bucket params; Key := S3.p_key params |}
  = Normal {| S3.Body := Some (Normal bytes) |} →
  ∃ (request : Request) (seg : string),
    trace (S3.load store (S3.new_S3Loader empty_config rt params))
    = [EvS3Send {| Bucket := S3.p_bucket params; Key := S3.p_key params |}; EvFetch request] ∧
    req_method request = "POST" ∧
    req_url request = S3.p_unstructuredAPIURL params ∧
    req_headers request = {[ "UNSTRUCTURED-API-KEY" := S3.p_unstructuredAPIKey params ]} ∧
    final_segment_of (S3.p_key params) seg ∧
    req_body request = [("files", FormFile bytes seg); ("strategy", FormString "hi_res")].
Proof.
  intros Hnone Hnew Hsend.
  set (self := S3.new_S3Loader empty_config rt params).
  assert (S3._UnstructuredLoader self = S3.UnstructuredLoaderDefault rt) as Hdefault.
  { unfold self, S3.new_S3Loader. simpl. rewrite Hnone. reflexivity. }
  pose proof (download_returns store self client bytes Hnew Hsend) as Hdown.
  assert (outcome (S3.download store self) = Normal bytes) as Hout by (rewrite Hdown; reflexivity).
  destruct (pop_split_final (S3.p_key params)) as (seg & Hpop & Hseg).
  eexists _, seg. split; [|split; [|split; [|split; [|split; [exact Hseg|]]]]].
  - rewrite (load_download_returns store self bytes Hout), Hdown.
    rewrite (partition_stage_default self rt (S3.key self) bytes Hdefault).
    unfold trace at 1. simpl. rewrite load_trace. reflexivity.
  - reflexivity.
  - reflexivity.
  - reflexivity.
  - rewrite build_request_body. simpl. rewrite Hpop. reflexivity.
Qed.

Lemma s3_request_content_witness :
  ∃ request : Request,
    trace (S3.load (Examples.holding [x25; x50]%byte)
             (S3.new_S3Loader tt Examples.offline Examples.archive_params))
    = [EvS3Send {| Bucket := "archive"; Key := "reports/q3/summary.pdf" |}; EvFetch request] ∧
    req_url request = "https://partition.example/general" ∧
    req_body request
    = [("files", FormFile [x25; x50]%byte "summary.pdf"); ("strategy", FormString "hi_res")].
Proof.
  destruct (s3_request_content tt Examples.offline (Examples.holding [x25; x50]%byte)
              Examples.archive_params
              {| S3.send := λ _, Normal {| S3.Body := Some (Normal [x25; x50]%byte) |} |}
              [x25; x50]%byte eq_refl eq_refl eq_refl)
    as (request & seg & Htrace & _ & Hurl & _ & _ & _).
  exists request. split; [exact Htrace|]. split; [exact Hurl|].
  vm_compute in Htrace. injection Htrace as <-. reflexivity.
Defined.

(** X12.  A loader built with no class injected issues at most one
    get-object command and at most one partitioning request, the command
    first: nothing is retried, and when the client cannot even be built no
    call leaves the process. *)
Theorem s3_load_calls {number S3Config : Type} (empty_config : S3Config)
    (rt : Unstructured.Runtime number) (store : S3.Store S3Config)
    (params : S3.S3LoaderParams number S3Config) :
  S3.p_UnstructuredLoader params = None →
  let self := S3.new_S3Loader empty_config rt params in
  let command := EvS3Send {| Bucket := S3.p_bucket params; Key := S3.p_key params |} in
  (trace (S3.load store self) = [] ∨
   trace (S3.load store self) = [command] ∨
   ∃ request : Request, trace (S3.load store self) = [command; EvFetch request]) ∧
  ((∃ e, S3.S3Client_new store (default empty_config (S3.p_s3Config params)) = Throw e) ↔
   trace (S3.load store self) = []).
Proof.
  intros Hnone self command.
  assert (S3._UnstructuredLoader self = S3.UnstructuredLoaderDefault rt) as Hdefault.
  { unfold self, S3.new_S3Loader. simpl. rewrite Hnone. reflexivity. }
  assert (trace (S3.download store self) = [] ↔
          ∃ e, S3.S3Client_new store (default empty_config (S3.p_s3Config params)) = Throw e)
    as Hempty.
  { unfold S3.download, bind, lift, call, throw, trace.
    change (S3.s3Config self) with (default empty_config (S3.p_s3Config params)).
    destruct (S3.S3Client_new store _) as [client|e]; simpl.
    - split; [|intros (e & H); discriminate H].
      repeat case_match; simplify_eq/=; discriminate.
    - split; [eauto | reflexivity]. }
  destruct (outcome (S3.download store self)) as [bytes|e] eqn:Hdown.
  - pose proof (download_ok_trace store self bytes Hdown) as Hcommand.
    assert (∃ request, trace (S3.load store self) = [command; EvFetch request])
      as (request & Htrace).
    { eexists. rewrite (load_download_returns store self bytes Hdown).
      rewrite (partition_stage_default self rt (S3.key self) bytes Hdefault).
      unfold trace at 1. simpl. rewrite load_trace, Hcommand. reflexivity. }
    rewrite Htrace. split.
    + right. right. exists request. reflexivity.
    + rewrite <- Hempty, Hcommand. split; discriminate.
  - assert (trace (S3.load store self) = trace (S3.download store self)) as Htrace.
    { rewrite (load_download_throws store self e Hdown). reflexivity. }
    rewrite Htrace. split.
    + destruct (download_trace store self) as [-> | ->]; [left | right; left]; reflexivity.
    + symmetry. exact Hempty.
Qed.

Lemma s3_load_calls_witness :
  trace (S3.load Examples.misconfigured
           (S3.new_S3Loader tt Examples.offline Examples.archive_params)) = [].
Proof.
  apply (proj2 (s3_load_calls tt Examples.offline Examples.misconfigured
                  Examples.archive_params eq_refl)).
  eexists. reflexivity.
Defined.

(** X13.  With a loader class injected through the constructor, the default
    client is out of the picture: once the object is downloaded, the
    injected class is called once, with the untrimmed key as file path, the
    downloaded bytes, and options that hold the endpoint and the credential
    only.  Its calls follow the get-object command, its documents are
    returned unchanged, and its failure, whatever it is, becomes the load
    error. *)
Theorem s3_injected_loader {number S3Config : Type} (empty_config : S3Config)
    (rt : Unstructured.Runtime number) (store : S3.Store S3Config)
    (params : S3.S3LoaderParams number S3Config) (client : S3.S3Client)
    (bytes : list byte) (injected : S3.UnstructuredLoaderClass number) :
  S3.p_UnstructuredLoader params = Some injected →
  S3.S3Client_new store (default empty_config (S3.p_s3Config params)) = Normal client →
  S3.send client {| Bucket := S3.p_bucket params; Key := S3.p_key params |}
  = Normal {| S3.Body := Some (Normal bytes) |} →
  let run :=
    injected (S3.p_key params) bytes
      (endpoint_options (S3.p_unstructuredAPIURL params) (S3.p_unstructuredAPIKey params)) in
  S3.load store (S3.new_S3Loader empty_config rt params)
  = (EvS3Send {| Bucket := S3.p_bucket params; Key := S3.p_key params |} :: trace run,
     match outcome run with
     | Normal docs => Normal docs
     | Throw _ => Throw (new_Error ("Failed to load file " +:+ S3.p_key params
                                     +:+ " using unstructured loader."))
     end).
Proof.
  intros Hsome Hnew Hsend run.
  set (self := S3.new_S3Loader empty_config rt params).
  pose proof (download_returns store self client bytes Hnew Hsend) as Hdown.
  assert (outcome (S3.download store self) = Normal bytes) as Hout by (rewrite Hdown; reflexivity).
  rewrite (load_download_returns store self bytes Hout), Hdown.
  assert (S3.partition_stage self (S3.key self) bytes = run) as ->.
  { unfold S3.partition_stage, self, S3.new_S3Loader, run, endpoint_options, bind, ret. simpl.
    rewrite Hsome. simpl.
    destruct (injected _ _ _) as [calls [docs|e]]; simpl; rewrite ?app_nil_r; reflexivity. }
  reflexivity.
Qed.

(** A stand-in that answers one fixed document without any request. *)
Lemma s3_injected_loader_witness :
  let stub : S3.UnstructuredLoaderClass Z :=
    λ filePath _ _, ret [ {| Unstructured.pageContent := filePath;
                             Unstructured.metadata := ∅ |} ] in
  S3.load (Examples.holding [x25]%byte)
    (S3.new_S3Loader tt Examples.offline
       {| S3.p_bucket := "archive"; S3.p_key := "reports/q3/summary.pdf";
          S3.p_unstructuredAPIURL := ""; S3.p_unstructuredAPIKey := "";
          S3.p_s3Config := Some tt; S3.p_UnstructuredLoader := Some stub |})
  = ([EvS3Send {| Bucket := "archive"; Key := "reports/q3/summary.pdf" |}],
     Normal [ {| Unstructured.pageContent := "reports/q3/summary.pdf";
                 Unstructured.metadata := ∅ |} ]).
Proof.
  intros stub.
  apply (s3_injected_loader tt Examples.offline (Examples.holding [x25]%byte)
           {| S3.p_bucket := "archive"; S3.p_key := "reports/q3/summary.pdf";
              S3.p_unstructuredAPIURL := ""; S3.p_unstructuredAPIKey := "";
              S3.p_s3Config := Some tt; S3.p_UnstructuredLoader := Some stub |}
           {| S3.send := λ _, Normal {| S3.Body := Some (Normal [x25]%byte) |} |}
           [x25]%byte stub eq_refl eq_refl eq_refl).
Defined.

(** X14.  [load] returns documents only after a well-formed exchange:
    whenever it returns, [fetch] had resolved to a success response whose
    body decoded to an array without [null], and the documents are the
    records of that array's elements. *)
Theorem load_success_sound {number : Type} (rt : Unstructured.Runtime number)
    (self : Unstructured.UnstructuredWebLoader)
    (docs : list (Unstructured.Document number)) :
  outcome (Unstructured.load rt self) = Normal docs →
  ∃ (r : Unstructured.Response number) (els : list (JsVal number)),
    Unstructured.fetch rt (Unstructured.build_request self) = Normal r ∧
    Unstructured.resp_ok r = true ∧
    Unstructured.resp_json r = Normal (JArr els) ∧
    Forall (λ el, nullish el = false) els ∧
    docs = omap record_of_element els.
Proof.
  intros Hload.
  assert (∀ e, outcome (Unstructured._partition rt self) = Throw e → False) as Hno.
  { intros e He. rewrite (load_partition_throws rt self e He) in Hload. discriminate Hload. }
  destruct (Unstructured.fetch rt (Unstructured.build_request self)) as [r|e] eqn:Hfetch.
  2: { exfalso. apply (Hno e). unfold Unstructured._partition, bind, call, outcome.
       rewrite Hfetch. reflexivity. }
  destruct (Unstructured.resp_ok r) eqn:Hok.
  2: { exfalso. destruct (Unstructured.resp_text r) as [body|e] eqn:Htext.
       - eapply Hno, (partition_not_ok rt self r body Hfetch Hok Htext).
       - apply (Hno e). unfold Unstructured._partition, bind, call, lift, outcome.
         rewrite Hfetch, Hok, Htext. reflexivity. }
  destruct (Unstructured.resp_json r) as [v|e] eqn:Hjson.
  2: { exfalso. apply (Hno e). unfold Unstructured._partition, bind, call, lift, outcome.
       rewrite Hfetch, Hok, Hjson. reflexivity. }
  assert (∃ els, v = JArr els) as (els & ->).
  { destruct v as [| | | | |items|props]; try (exists items; reflexivity); exfalso.
    all: pose proof (partition_not_array rt self r _ Hfetch Hok Hjson) as Hshape.
    all: match type of Hshape with
         | _ → outcome _ = cbind ?c _ =>
             destruct c as [shown|e'] eqn:Hshown; simpl in Hshape;
             eapply Hno, Hshape; intros items H; discriminate H
         end. }
  exists r, els. do 3 (split; [first [reflexivity | assumption]|]).
  rewrite (load_array rt self r els Hfetch Hok Hjson) in Hload.
  destruct (array_filter Unstructured.text_is_string els) as [kept|e] eqn:Hfilter;
    [|discriminate Hload].
  pose proof (filter_returned_non_nullish els kept Hfilter) as Hels.
  split; [exact Hels|].
  apply filter_returned in Hfilter. subst kept. simpl in Hload.
  rewrite (load_loop_closed_form els [] Hels) in Hload. injection Hload as <-. reflexivity.
Qed.

Lemma load_success_sound_witness :
  ∃ (r : Unstructured.Response Z) (els : list (JsVal Z)),
    Unstructured.fetch (Examples.serving (Examples.ok_json (JArr Examples.title_and_marker)))
      (Unstructured.build_request Examples.report) = Normal r ∧
    Unstructured.resp_ok r = true ∧
    Unstructured.resp_json r = Normal (JArr els) ∧
    Forall (λ el, nullish el = false) els ∧
    omap record_of_element Examples.title_and_marker = omap record_of_element els.
Proof.
  apply (load_success_sound
           (Examples.serving (Examples.ok_json (JArr Examples.title_and_marker)))
           Examples.report (omap record_of_element Examples.title_and_marker)).
  reflexivity.
Defined.

(** ** A keyless metadata, among any neighbours *)

Lemma keyless_record {number : Type} (props : gmap string (JsVal number)) (t : string) :
  keyless (prop props "metadata") →
  record props t
  = {| Unstructured.pageContent := t;
       Unstructured.metadata := {[ "category" := prop props "type" ]} |}.
Proof.
  intros Hless. unfold record.
  destruct (prop props "metadata") as [| | | |s|items|m];
    simpl in Hless; subst; try contradiction; reflexivity.
Qed.

(** C9 (amended).  Take any element whose [text] is a string and whose
    [metadata] is absent, [null], a boolean, a number, or an empty string or
    array, anywhere in the decoded array and whatever its neighbours are.
    The element never makes [load] fail: [load] returns as soon as none of
    the other elements is [null].  And whenever [load] returns, the output
    holds, between the records of the elements before it and the records of
    the elements after it, one record for this element, whose content is its
    [text] and whose attributes are exactly the synthesized [category] key,
    set to the element's [type]. *)
Theorem load_keyless_metadata {number : Type} (rt : Unstructured.Runtime number)
    (self : Unstructured.UnstructuredWebLoader) (r : Unstructured.Response number)
    (before after : list (JsVal number)) (props : gmap string (JsVal number)) (t : string) :
  Unstructured.fetch rt (Unstructured.build_request self) = Normal r →
  Unstructured.resp_ok r = true →
  Unstructured.resp_json r = Normal (JArr (before ++ JObj props :: after)) →
  props !! "text" = Some (JStr t) →
  keyless (prop props "metadata") →
  (Forall (λ el, nullish el = false) (before ++ after) →
   ∃ docs, outcome (Unstructured.load rt self) = Normal docs) ∧
  ∀ docs : list (Unstructured.Document number),
    outcome (Unstructured.load rt self) = Normal docs →
    ∃ d : Unstructured.Document number,
      docs = omap record_of_element before ++ d :: omap record_of_element after ∧
      is_bare_record_of (JObj props) d ∧
      Unstructured.pageContent d = t ∧
      Unstructured.metadata d = {[ "category" := prop props "type" ]}.
Proof.
  intros Hfetch Hok Hjson Htext Hless. split.
  - intros Hothers. apply Forall_app in Hothers as [Hbefore Hafter].
    assert (Forall (λ el, nullish el = false) (before ++ JObj props :: after)) as Hels.
    { apply Forall_app. split; [exact Hbefore|]. constructor; [reflexivity | exact Hafter]. }
    destruct (load_non_nullish rt self r _ Hfetch Hok Hjson Hels) as (docs & Hload & _).
    exists docs. exact Hload.
  - intros docs Hload.
    rewrite (load_array rt self r _ Hfetch Hok Hjson) in Hload.
    destruct (array_filter Unstructured.text_is_string (before ++ JObj props :: after))
      as [kept|e] eqn:Hfilter; [|discriminate Hload].
    pose proof (filter_returned_non_nullish _ kept Hfilter) as Hels.
    apply filter_returned in Hfilter. subst kept. simpl in Hload.
    rewrite (load_loop_closed_form _ [] Hels) in Hload. injection Hload as <-.
    exists (record props t). split; [|split; [|split]].
    + rewrite omap_app, records_cons. unfold record_of_element at 2. rewrite Htext.
      reflexivity.
    + exists props, t. rewrite (keyless_record props t Hless). repeat split. exact Htext.
    + reflexivity.
    + rewrite (keyless_record props t Hless). reflexivity.
Qed.

(** A bare element between an element with a page number and a number. *)
Lemma load_keyless_metadata_witness :
  let paged := Examples.obj [("type", JStr "Title"); ("text", JStr "Hello");
                             ("metadata", Examples.obj [("page", JNum 1%Z)])] in
  let bare := Examples.obj [("type", JStr "Text"); ("text", JStr "World");
                            ("metadata", JNull)] in
  ∃ docs, outcome (Unstructured.load
                     (Examples.serving (Examples.ok_json (JArr [paged; bare; JNum 7%Z])))
                     Examples.report) = Normal docs ∧
          ∃ d, docs = omap record_of_element [paged] ++ d :: omap record_of_element [JNum 7%Z] ∧
               Unstructured.pageContent d = "World" ∧
               Unstructured.metadata d = {[ "category" := JStr "Text" ]}.
Proof.
  intros paged bare.
  destruct (load_keyless_metadata
              (Examples.serving (Examples.ok_json (JArr [paged; bare; JNum 7%Z])))
              Examples.report (Examples.ok_json (JArr [paged; bare; JNum 7%Z]))
              [paged] [JNum 7%Z]
              (list_to_map [("type", JStr "Text"); ("text", JStr "World"); ("metadata", JNull)])
              "World" eq_refl eq_refl eq_refl eq_refl I)
    as [Hreturns Hrecord].
  destruct Hreturns as (docs & Hload); [repeat constructor|].
  exists docs. split; [exact Hload|].
  destruct (Hrecord docs Hload) as (d & Hdocs & _ & Hcontent & Hmeta).
  exists d. split; [exact Hdocs|]. split; [exact Hcontent | exact Hmeta].
Defined.
